(** * blinkstickcpp: the message codec and the device facade of [device.cpp]

    The translation unit has two layers.  The anonymous namespace holds the
    pure message builders ([rgb_to_char], [build_control_message],
    [build_mode_message], [build_count_message], [determine_report_id]) and
    two thin wrappers around hidapi.  The [blinkstick::device] methods call
    the builders and hand the bytes to hidapi.

    Conventions of the embedding:
    - a [uint8_t] is a [Z] in [0, 256); a conversion from [int] is [u8],
      written where the source converts; a parameter declared [uint8_t] is
      taken as the caller passed it;
    - an [int] is a [Z]; where the source computes in [int] from an
      argument that nothing bounds, the overflow is undefined behaviour
      ([int_value]);
    - [std::vector] and [std::array] are lists; an access outside the
      container is undefined behaviour, rendered as [None];
    - hidapi is an interface ([Hidapi]); every call the wrappers make is
      appended to the log [calls] of the state;
    - [debug] only prints a diagnostic and is left out. *)

From stdpp Require Import base option list numbers.

Local Open Scope Z_scope.

(** ** Fixed-width values and containers *)

(** Conversion of an [int] to [uint8_t]. *)
Definition u8 (z : Z) : Z := z `mod` 256.

(** The range of [int]. *)
Definition INT_MIN : Z := -2147483648.
Definition INT_MAX : Z := 2147483647.

(** The value of an [int] expression whose exact result is [z]: signed
    overflow is undefined. *)
Definition int_value (z : Z) : option Z :=
  if decide (INT_MIN ≤ z ≤ INT_MAX) then Some z else None.

(** [v[i]] as an rvalue.  Outside the container the access is undefined. *)
Definition at_index {A : Type} (v : list A) (i : Z) : option A :=
  if decide (0 ≤ i) then v !! Z.to_nat i else None.

(** [v[i] = x].  Outside the container the store is undefined. *)
Definition store {A : Type} (v : list A) (i : Z) (x : A) : option (list A) :=
  if decide (0 ≤ i < Z.of_nat (length v)) then Some (<[Z.to_nat i := x]> v) else None.

(** Modelled from the spec: [blinkstick/device.h] is not among the sources;
    the spec describes a colour as three independent 8-bit channels. *)
Record colour : Type := Colour { red : Z; green : Z; blue : Z }.

Definition black : colour := Colour 0 0 0.

(** ** Message codec (anonymous namespace) *)

Definition MODE_MSG_SIZE : Z := 2.
Definition COUNT_MSG_SIZE : Z := 2.

(** [std::array<uint8_t, 3>] *)
Record array3 : Type := Array3 { elem0 : Z; elem1 : Z; elem2 : Z }.

Definition rgb_to_char (r g b : Z) : array3 :=
  Array3 (u8 (Z.land r 0xff)) (u8 (Z.land g 0xff)) (u8 (Z.land b 0xff)).

Definition build_control_message (index channel : Z) (color : array3) : list Z :=
  if decide (index = 0 ∧ channel = 0)
  then [0x1; elem0 color; elem1 color; elem2 color]
  else [0x5; channel; index; elem0 color; elem1 color; elem2 color].

(** [blinkstick::mode] is an enumeration; a value of it is represented by
    its underlying integer, so [static_cast<uint8_t>(mode)] is [u8]. *)
Definition build_mode_message (mode : Z) : list Z :=
  [0x0004; u8 mode].

Definition build_count_message (count : Z) : list Z :=
  [0x81; count].

(** Returns the pair [{report_id, max_leds}]. *)
Definition determine_report_id (count : Z) : Z * Z :=
  let max_leds := 64 in
  let report_id := 9 in
  let '(max_leds, report_id) :=
    if decide (count ≤ 8 * 3) then (8, 6)
    else if decide (count ≤ 16 * 3) then (16, 7)
    else if decide (count ≤ 32 * 3) then (32, 8)
    else if decide (count ≤ 64 * 3) then (64, 9)
    else if decide (count ≤ 128 * 3) then (64, 10)
    else (max_leds, report_id) in
  (report_id, max_leds).

(** ** The transport

    hidapi is external.  A call receives the raw device pointer (possibly
    null), the bytes of the buffer and the state of the bus; it returns its
    [int] result and the new state of the bus.  [hid_get_feature_report]
    also returns the bytes it wrote into the caller's buffer. *)
Class Hidapi : Type := {
  hid_device : Type;
  hid_bus : Type;
  hid_send_feature_report : option hid_device → list Z → hid_bus → Z * hid_bus;
  hid_get_feature_report : option hid_device → list Z → hid_bus → Z * list Z * hid_bus;
}.

(** What the translation unit takes from outside its own text.

    Modelled from the spec: the enumerator [mode::unknown] is declared in the
    missing header; its underlying value is [mode_unknown].  [indeterminate]
    gives the bytes found in an automatic array that is not initialised. *)
Class Platform : Type := {
  mode_unknown : Z;
  indeterminate : nat → Z;
}.

(** hidapi writes at most [length buf] bytes, in place. *)
Definition overwrite (buf reply : list Z) : list Z :=
  take (length buf) (u8 <$> reply) ++ drop (length reply) buf.

(** The loop of [set_colours]:
    [for (int i = 0; i < colourSize; ++i) { ... msg[index++] = ...; }].
    [remaining] is the number of iterations still to run, [i] and [index]
    are the two counters. *)
Fixpoint copy_colours (remaining : nat) (colours : list colour) (i index : Z)
    (msg : list Z) : option (list Z) :=
  match remaining with
  | O => Some msg
  | S remaining' =>
      colour ← at_index colours i;
      msg ← store msg index (u8 (green colour));
      msg ← store msg (index + 1) (u8 (red colour));
      msg ← store msg (index + 2) (u8 (blue colour));
      copy_colours remaining' colours (i + 1) (index + 3) msg
  end.

Section Facade.
Context {hid : Hidapi} {platform : Platform}.

Inductive hid_call : Type :=
| hid_send (dev : option hid_device) (data : list Z)
| hid_get (dev : option hid_device) (data : list Z).

(** The data members of [blinkstick::device], as the methods use them (the
    class is declared in the missing header).  [led_count] is tested with
    [if (led_count)] and read with [*led_count]: an optional value, empty
    until a count is cached; the [const] methods assign it.  [device_type]
    is an enumeration and is represented by its underlying integer. *)
Record device : Type := Device {
  handle : option hid_device;
  type : Z;
  led_count : option Z;
}.

(** [device::device(handle, type)]: the cache starts empty. *)
Definition new_device (handle : option hid_device) (type : Z) : device :=
  Device handle type None.

Record state : Type := State {
  this : device;
  bus : hid_bus;
  calls : list hid_call;
}.

(** Computations over the state; [None] is undefined behaviour. *)
Definition M (A : Type) : Type := state → option (A * state).

#[global] Instance facade_ret : MRet M := λ A a s, Some (a, s).

#[global] Instance facade_bind : MBind M := λ A B k m s,
  match m s with
  | Some (a, s') => k a s'
  | None => None
  end.

Definition defined {A : Type} (o : option A) : M A :=
  λ s, match o with
       | Some a => Some (a, s)
       | None => None
       end.

Definition get_this : M device := λ s, Some (this s, s).

Definition assign_led_count (n : Z) : M unit :=
  λ s, Some (tt, State (Device (handle (this s)) (type (this s)) (Some n))
                       (bus s) (calls s)).

(** *** The wrappers around hidapi *)

Definition get_feature_report (handle : option hid_device) (msg : list Z)
  : M (Z * list Z) :=
  λ s, let '(result, reply, bus') := hid_get_feature_report handle msg (bus s) in
       Some ((result, overwrite msg reply),
             State (this s) bus' (calls s ++ [hid_get handle msg])).

Definition send_feature_report (handle : option hid_device) (msg : list Z)
  : M Z :=
  λ s, let '(result, bus') := hid_send_feature_report handle msg (bus s) in
       Some (result, State (this s) bus' (calls s ++ [hid_send handle msg])).

(** *** [blinkstick::device] *)

Definition get_led_count : M Z :=
  self ← get_this;
  match led_count self with
  | Some n => mret n
  | None =>
      let data := build_count_message 0 in
      '(result, data) ← get_feature_report (handle self) data;
      n ← defined (at_index data 1);
      _ ← assign_led_count n;
      mret n
  end.

Definition set_mode (mode : Z) : M bool :=
  self ← get_this;
  let msg := build_mode_message mode in
  match handle self with
  | None => mret false
  | Some _ =>
      result ← send_feature_report (handle self) msg;
      if decide (result = -1) then mret false else mret true
  end.

Definition get_mode : M Z :=
  self ← get_this;
  let data := build_mode_message mode_unknown in
  result ← send_feature_report (handle self) data;
  if decide (result = -1) then mret mode_unknown
  else defined (at_index data 1).

Definition set_colour (channel index r g b : Z) : M bool :=
  self ← get_this;
  match handle self with
  | None => mret false
  | Some _ =>
      let color := rgb_to_char (u8 r) (u8 g) (u8 b) in
      let msg := build_control_message (u8 index) (u8 channel) color in
      result ← send_feature_report (handle self) msg;
      if decide (result = -1) then mret false else mret true
  end.

(** [set_colours(int channel, const std::vector<colour>&)] *)
Definition set_colours (channel : Z) (colours : list colour) : M bool :=
  self ← get_this;
  match handle self with
  | None => mret false
  | Some _ =>
      count ← get_led_count;
      let '(report_id, max_leds) := determine_report_id (count * 3) in
      let msg := replicate (Z.to_nat (max_leds * 3 + 2)) 0 in
      msg ← defined (store msg 0 report_id);
      msg ← defined (store msg 1 (u8 channel));
      let colourSize := Z.min (u8 (Z.of_nat (length colours))) max_leds in
      msg ← defined (copy_colours (Z.to_nat colourSize) colours 0 2 msg);
      result ← send_feature_report (handle self) msg;
      if decide (result = -1) then mret false else mret true
  end.

(** [set_colours(int channel, int red, int green, int blue)] *)
Definition set_colours_rgb (channel r g b : Z) : M bool :=
  total_leds ← get_led_count;
  let colours := replicate (Z.to_nat total_leds) (Colour (u8 r) (u8 g) (u8 b)) in
  set_colours channel colours.

Definition get_colour (index : Z) : M colour :=
  self ← get_this;
  if decide (index = 0) then
    let data := (λ i, u8 (indeterminate i)) <$> seq 0 33 in
    data ← defined (store data 0 0x0001);
    '(result, data) ← get_feature_report (handle self) data;
    if decide (result = -1) then mret black
    else
      r ← defined (at_index data 1);
      g ← defined (at_index data 2);
      b ← defined (at_index data 3);
      mret (Colour r g b)
  else
    count ← defined (int_value ((index + 1) * 3));
    let '(report_id, max_leds) := determine_report_id count in
    let data := replicate (Z.to_nat (max_leds * 3 + 2)) 0 in
    data ← defined (store data 0 report_id);
    '(result, data) ← get_feature_report (handle self) data;
    if decide (result = -1) then mret black
    else
      r ← defined (at_index data (index * 3 + 3));
      g ← defined (at_index data (index * 3 + 2));
      b ← defined (at_index data (index * 3 + 4));
      mret (Colour r g b).

(** [off(int channel, int index)] *)
Definition off (channel index : Z) : M bool :=
  set_colour channel index 0 0 0.

(** [off()] *)
Definition off_all : M bool :=
  set_colours_rgb 0 0 0 0.

Definition set_led_count (count : Z) : M bool :=
  self ← get_this;
  match handle self with
  | None => mret false
  | Some _ =>
      let msg := build_count_message count in
      result ← send_feature_report (handle self) msg;
      if decide (result = -1) then mret false
      else
        _ ← assign_led_count count;
        mret true
  end.

Definition get_type : M Z :=
  self ← get_this;
  mret (type self).

Definition is_valid : M bool :=
  self ← get_this;
  mret (bool_decide (handle self ≠ None)).

End Facade.

(** ** A scripted transport

    A concrete hidapi for closed examples.  The bus is the list of outcomes
    still to come: the [int] result and, for a read, the bytes written into
    the buffer.  With nothing left every call returns 0 and writes nothing. *)
Definition scripted : Hidapi := {|
  hid_device := nat;
  hid_bus := list (Z * list Z);
  hid_send_feature_report := λ _ _ script,
    match script with
    | [] => (0, [])
    | (result, _) :: script' => (result, script')
    end;
  hid_get_feature_report := λ _ _ script,
    match script with
    | [] => (0, [], [])
    | (result, reply) :: script' => (result, reply, script')
    end;
|}.

(** [mode::unknown] with underlying value 0 (the spec's wire table sends
    [0x04, 0x00] to read the mode); automatic storage that was never written
    holds the residue byte 0xa5. *)
Definition bench : Platform := {|
  mode_unknown := 0;
  indeterminate := λ _, 0xa5;
|}.

(** A freshly constructed device on the scripted transport. *)
Definition fresh (handle : option nat) (script : list (Z * list Z))
    : @state scripted :=
  @State scripted (@new_device scripted handle 0) script [].

(** The number of hidapi calls between two states. *)
Definition transport_calls {hid : Hidapi} (before after : @state hid) : Z :=
  Z.of_nat (length (calls after)) - Z.of_nat (length (calls before)).

(** The bytes of a sequence of colours as [set_colours] lays them out. *)
Definition grb_bytes (colours : list colour) : list Z :=
  colours ≫= λ c, [u8 (green c); u8 (red c); u8 (blue c)].

(** * Properties *)

(** ** The codec *)

Lemma determine_report_id_max_leds (count : Z) :
  8 ≤ (determine_report_id count).2 ≤ 64.
Proof.
  unfold determine_report_id.
  repeat case_decide; simpl; lia.
Qed.

(** C1, as the code has it: the five tiers of the table, and above 384 the
    values the two locals were initialised with, report id 9 and 64 LEDs. *)
Theorem determine_report_id_table (byte_count : Z) :
  (0 ≤ byte_count ≤ 24 → determine_report_id byte_count = (6, 8)) ∧
  (24 < byte_count ≤ 48 → determine_report_id byte_count = (7, 16)) ∧
  (48 < byte_count ≤ 96 → determine_report_id byte_count = (8, 32)) ∧
  (96 < byte_count ≤ 192 → determine_report_id byte_count = (9, 64)) ∧
  (192 < byte_count ≤ 384 → determine_report_id byte_count = (10, 64)) ∧
  (384 < byte_count → determine_report_id byte_count = (9, 64)).
Proof.
  unfold determine_report_id.
  repeat split; intros Hrange; repeat case_decide; first [reflexivity | lia].
Qed.

Lemma determine_report_id_table_witness :
  determine_report_id 24 = (6, 8) ∧ determine_report_id 25 = (7, 16) ∧
  determine_report_id 96 = (8, 32) ∧ determine_report_id 97 = (9, 64) ∧
  determine_report_id 384 = (10, 64) ∧ determine_report_id 765 = (9, 64).
Proof.
  refine (conj _ (conj _ (conj _ (conj _ (conj _ _))))).
  - destruct (determine_report_id_table 24) as (H & _); apply H; lia.
  - destruct (determine_report_id_table 25) as (_ & H & _); apply H; lia.
  - destruct (determine_report_id_table 96) as (_ & _ & H & _); apply H; lia.
  - destruct (determine_report_id_table 97) as (_ & _ & _ & H & _); apply H; lia.
  - destruct (determine_report_id_table 384) as (_ & _ & _ & _ & H & _); apply H; lia.
  - destruct (determine_report_id_table 765) as (_ & _ & _ & _ & _ & H); apply H; lia.
Defined.

(** C1, as the spec words it, fails just above the last threshold: for a
    byte count of 385 the function does not answer (10, 64). *)
Lemma determine_report_id_385 : determine_report_id 385 ≠ (10, 64).
Proof. vm_compute. discriminate. Qed.

(** C2: [build_control_message] answers the 4-byte message [0x01, R, G, B]
    exactly when index and channel are both 0, and the 6-byte message
    [0x05, channel, index, R, G, B] for every other pair. *)
Theorem build_control_message_format (index channel : Z) (color : array3) :
  (build_control_message index channel color
     = [0x01; elem0 color; elem1 color; elem2 color]
   ↔ index = 0 ∧ channel = 0) ∧
  (¬ (index = 0 ∧ channel = 0) →
   build_control_message index channel color
     = [0x05; channel; index; elem0 color; elem1 color; elem2 color]).
Proof.
  unfold build_control_message.
  split; [split|]; case_decide; try done.
Qed.

Lemma build_control_message_format_witness :
  build_control_message 0 0 (Array3 255 128 7) = [0x01; 255; 128; 7] ∧
  build_control_message 0 2 (Array3 255 128 7) = [0x05; 2; 0; 255; 128; 7] ∧
  build_control_message 5 0 (Array3 255 128 7) = [0x05; 0; 5; 255; 128; 7].
Proof.
  refine (conj _ (conj _ _)).
  - apply (build_control_message_format 0 0 (Array3 255 128 7)). split; reflexivity.
  - apply (build_control_message_format 0 2 (Array3 255 128 7)). intros [_ H]; discriminate H.
  - apply (build_control_message_format 5 0 (Array3 255 128 7)). intros [H _]; discriminate H.
Defined.

(** For the indices 1 to 63 the three offsets [get_colour] reads lie inside
    the buffer its report class gives. *)
Lemma get_colour_offsets_inside (index : Z) :
  1 ≤ index ≤ 63 →
  index * 3 + 4 < (determine_report_id ((index + 1) * 3)).2 * 3 + 2.
Proof.
  intros Hindex. unfold determine_report_id.
  repeat case_decide; simpl; lia.
Qed.

(** From index 64 on, all three offsets lie beyond the buffer. *)
Lemma get_colour_offsets_beyond (index : Z) :
  64 ≤ index →
  (determine_report_id ((index + 1) * 3)).2 * 3 + 2 ≤ index * 3 + 2.
Proof.
  intros Hindex. unfold determine_report_id.
  repeat case_decide; simpl; lia.
Qed.

(** ** Containers and [int] *)

Lemma int_value_fits (z : Z) :
  INT_MIN ≤ z ≤ INT_MAX → int_value z = Some z.
Proof. intros Hz. unfold int_value. by rewrite decide_True. Qed.

Lemma int_value_overflow (z : Z) :
  ¬ (INT_MIN ≤ z ≤ INT_MAX) → int_value z = None.
Proof. intros Hz. unfold int_value. by rewrite decide_False. Qed.

Lemma length_overwrite (buf reply : list Z) :
  length (overwrite buf reply) = length buf.
Proof.
  unfold overwrite.
  rewrite length_app, length_take, length_drop, length_fmap. lia.
Qed.

Lemma at_index_is_Some {A : Type} (v : list A) (i : Z) :
  0 ≤ i < Z.of_nat (length v) → is_Some (at_index v i).
Proof.
  intros Hi. unfold at_index.
  rewrite decide_True by lia.
  apply lookup_lt_is_Some. lia.
Qed.

Lemma at_index_beyond {A : Type} (v : list A) (i : Z) :
  Z.of_nat (length v) ≤ i → at_index v i = None.
Proof.
  intros Hi. unfold at_index.
  case_decide; [|done].
  apply lookup_ge_None. lia.
Qed.

Lemma at_index_middle {A : Type} (done rest : list A) (x : A) (i : Z) :
  i = Z.of_nat (length done) → at_index (done ++ x :: rest) i = Some x.
Proof.
  intros ->. unfold at_index.
  rewrite decide_True by lia.
  rewrite Nat2Z.id. apply list_lookup_middle. done.
Qed.

Lemma store_middle {A : Type} (pre post : list A) (y x : A) (i : Z) :
  i = Z.of_nat (length pre) →
  store (pre ++ y :: post) i x = Some (pre ++ x :: post).
Proof.
  intros ->. unfold store.
  rewrite decide_True by (rewrite length_app; simpl; lia).
  rewrite Nat2Z.id.
  rewrite insert_app_r_alt by lia.
  by rewrite Nat.sub_diag.
Qed.

Lemma length_grb_bytes (colours : list colour) :
  length (grb_bytes colours) = (3 * length colours)%nat.
Proof.
  induction colours as [|c colours IH]; [done|].
  change (grb_bytes (c :: colours))
    with (u8 (green c) :: u8 (red c) :: u8 (blue c) :: grb_bytes colours).
  simpl. rewrite IH. lia.
Qed.

(** Three consecutive stores, as one iteration of the loop performs them. *)
Lemma store_three (pre post : list Z) (a b c x y z : Z) (i : Z) :
  i = Z.of_nat (length pre) →
  store (pre ++ a :: b :: c :: post) i x = Some (pre ++ x :: b :: c :: post) ∧
  store (pre ++ x :: b :: c :: post) (i + 1) y = Some (pre ++ x :: y :: c :: post) ∧
  store (pre ++ x :: y :: c :: post) (i + 2) z = Some (pre ++ x :: y :: z :: post).
Proof.
  intros ->. split; [|split].
  - by apply store_middle.
  - rewrite (cons_middle x pre), (cons_middle x pre (y :: _)), !app_assoc.
    apply store_middle. rewrite length_app. simpl. lia.
  - rewrite (cons_middle x pre), (cons_middle x pre (y :: z :: _)), !app_assoc.
    rewrite (cons_middle y (pre ++ [x])), (cons_middle y (pre ++ [x]) (z :: _)), !app_assoc.
    apply store_middle. rewrite !length_app. simpl. lia.
Qed.

(** The loop copies the next [remaining] colours, three bytes each, over the
    zeros that follow [pre], and it stays inside the buffer. *)
Lemma copy_colours_spec (remaining : nat) :
  ∀ (done rest : list colour) (pre : list Z) (k : nat),
    (remaining ≤ length rest)%nat →
    (3 * remaining ≤ k)%nat →
    copy_colours remaining (done ++ rest)
      (Z.of_nat (length done)) (Z.of_nat (length pre)) (pre ++ replicate k 0)
    = Some (pre ++ grb_bytes (take remaining rest)
                ++ replicate (k - 3 * remaining) 0).
Proof.
  induction remaining as [|n IH]; intros done rest pre k Hrest Hk.
  - simpl. by rewrite Nat.sub_0_r.
  - destruct rest as [|c rest]; [simpl in Hrest; lia|].
    destruct k as [|[|[|k]]]; [lia..|].
    cbn [copy_colours replicate].
    rewrite (at_index_middle done rest c) by done.
    destruct (store_three pre (replicate k 0) 0 0 0
                (u8 (green c)) (u8 (red c)) (u8 (blue c))
                (Z.of_nat (length pre)) eq_refl) as (Hg & Hr & Hb).
    cbn [mbind option_bind]. rewrite Hg.
    cbn [mbind option_bind]. rewrite Hr.
    cbn [mbind option_bind]. rewrite Hb.
    cbn [mbind option_bind].
    specialize (IH (done ++ [c]) rest
                   (pre ++ [u8 (green c); u8 (red c); u8 (blue c)]) k).
    rewrite !length_app in IH. simpl in IH.
    rewrite <- !app_assoc in IH. simpl in IH.
    replace (Z.of_nat (length done) + 1) with (Z.of_nat (length done + 1)) by lia.
    replace (Z.of_nat (length pre) + 3) with (Z.of_nat (length pre + 3)) by lia.
    rewrite IH by (simpl in Hrest; lia).
    replace (S (S (S k)) - 3 * S n)%nat with (k - 3 * n)%nat by lia.
    done.
Qed.

(** ** The device facade *)

(** Unfolds the plumbing of [M], leaving the calls to hidapi. *)
Ltac run :=
  unfold mbind, mret, facade_bind, facade_ret, get_this, defined,
    assign_led_count, get_feature_report, send_feature_report;
  cbn beta iota.

Section FacadeProperties.
Context {hid : Hidapi} {platform : Platform}.

Implicit Types (s : state) (n result : Z) (reply : list Z).

Lemma count_reply_byte reply :
  is_Some (at_index (overwrite (build_count_message 0) reply) 1).
Proof.
  apply at_index_is_Some. rewrite length_overwrite. simpl. lia.
Qed.

(** A cached count is answered from the cache; the state is untouched. *)
Lemma get_led_count_hit s n :
  led_count (this s) = Some n → get_led_count s = Some (n, s).
Proof.
  intros Hcache. unfold get_led_count. run. by rewrite Hcache.
Qed.

(** With no cached count the query goes through [get_feature_report]. *)
Lemma get_led_count_miss s result reply bus' n :
  led_count (this s) = None →
  hid_get_feature_report (handle (this s)) (build_count_message 0) (bus s)
    = (result, reply, bus') →
  at_index (overwrite (build_count_message 0) reply) 1 = Some n →
  get_led_count s
    = Some (n, State (Device (handle (this s)) (type (this s)) (Some n)) bus'
                     (calls s ++ [hid_get (handle (this s)) (build_count_message 0)])).
Proof.
  intros Hcache Hget Hbyte. unfold get_led_count. run.
  rewrite Hcache, Hget. cbn beta iota. by rewrite Hbyte.
Qed.

(** [get_led_count] never runs into undefined behaviour. *)
Lemma get_led_count_total s :
  ∃ n s1, get_led_count s = Some (n, s1) ∧ led_count (this s1) = Some n ∧
          handle (this s1) = handle (this s) ∧
          (led_count (this s) = Some n → s1 = s).
Proof.
  destruct (led_count (this s)) as [n|] eqn:Hcache.
  - exists n, s. rewrite (get_led_count_hit s n Hcache). by destruct s as [[]].
  - destruct (hid_get_feature_report (handle (this s)) (build_count_message 0) (bus s))
      as [[result reply] bus'] eqn:Hget.
    destruct (count_reply_byte reply) as [n Hbyte].
    eexists n, _. rewrite (get_led_count_miss s result reply bus' n) by done.
    by simpl.
Qed.

(** C5, as the code has it: with the cache unset, [get_led_count] issues the
    count query [0x81, 0] through the get-feature-report primitive (one call,
    no send), then caches and returns byte 1 of the buffer hidapi wrote. *)
Theorem get_led_count_query s result reply bus' :
  led_count (this s) = None →
  hid_get_feature_report (handle (this s)) [0x81; 0] (bus s) = (result, reply, bus') →
  ∃ n, at_index (overwrite [0x81; 0] reply) 1 = Some n ∧
       get_led_count s
       = Some (n, State (Device (handle (this s)) (type (this s)) (Some n)) bus'
                        (calls s ++ [hid_get (handle (this s)) [0x81; 0]])).
Proof.
  intros Hcache Hget.
  destruct (count_reply_byte reply) as [n Hbyte].
  exists n. split; [exact Hbyte|].
  by apply (get_led_count_miss s result reply bus' n).
Qed.

(** C7: two calls of [get_led_count] answer the same value, the second one
    from the cache, leaving the state as it found it; with the cache unset
    at the start the two calls reach hidapi exactly once; after a
    [set_led_count n] that answered [true], [get_led_count] answers [n]
    without reaching hidapi; and on a non-null handle a [set_led_count n]
    whose send does not return -1 does answer [true], after that one call,
    and the [get_led_count] that follows answers [n] without a further
    one. *)
Theorem get_led_count_memoised s :
  (∃ n s1, get_led_count s = Some (n, s1) ∧ get_led_count s1 = Some (n, s1)) ∧
  (led_count (this s) = None →
   ∃ n s1 s2, get_led_count s = Some (n, s1) ∧ get_led_count s1 = Some (n, s2) ∧
              transport_calls s s1 = 1 ∧ transport_calls s1 s2 = 0 ∧
              transport_calls s s2 = 1) ∧
  (∀ n s1, set_led_count n s = Some (true, s1) →
   ∃ s2, get_led_count s1 = Some (n, s2) ∧ transport_calls s1 s2 = 0) ∧
  (∀ (h : hid_device) n result bus',
     handle (this s) = Some h →
     hid_send_feature_report (Some h) (build_count_message n) (bus s)
       = (result, bus') →
     result ≠ -1 →
     ∃ s1 s2, set_led_count n s = Some (true, s1) ∧
              transport_calls s s1 = 1 ∧
              get_led_count s1 = Some (n, s2) ∧
              transport_calls s1 s2 = 0).
Proof.
  split; [|split; [|split]].
  - destruct (get_led_count_total s) as (n & s1 & Hget & Hcache & _).
    exists n, s1. split; [exact Hget|]. by apply get_led_count_hit.
  - intros Hcache.
    destruct (hid_get_feature_report (handle (this s)) (build_count_message 0) (bus s))
      as [[result reply] bus'] eqn:Hget.
    destruct (count_reply_byte reply) as [n Hbyte].
    eexists n, _, _.
    rewrite (get_led_count_miss s result reply bus' n) by done.
    split; [reflexivity|]. split; [by apply get_led_count_hit|].
    unfold transport_calls. simpl. rewrite length_app. simpl. lia.
  - intros n s1. unfold set_led_count. run.
    destruct (handle (this s)) as [h|]; [|discriminate].
    destruct (hid_send_feature_report _ _ _) as [result bus'].
    cbn beta iota. case_decide; [discriminate|].
    intros [= <-]. eexists. split; [by apply get_led_count_hit|].
    unfold transport_calls. lia.
  - intros h n result bus' Hh Hsend Hresult.
    unfold set_led_count. run. rewrite Hh, Hsend. cbn beta iota.
    rewrite decide_False by done.
    eexists _, _. split; [reflexivity|].
    split; [unfold transport_calls; simpl; rewrite length_app; simpl; lia|].
    split; [by apply get_led_count_hit|].
    unfold transport_calls. lia.
Qed.

(** C10: when the cache is unset and the read of the count query fails,
    hidapi leaving the buffer as it was built, [get_led_count] caches and
    answers the 0 of the request; from then on, as long as the cache holds
    that 0, a call answers 0 and leaves the state (hence the log of hidapi
    calls) unchanged, so the query is not issued again. *)
Theorem get_led_count_failed_query s result reply bus' :
  led_count (this s) = None →
  hid_get_feature_report (handle (this s)) (build_count_message 0) (bus s)
    = (result, reply, bus') →
  result < 0 →
  overwrite (build_count_message 0) reply = build_count_message 0 →
  ∃ s1, get_led_count s = Some (0, s1) ∧
        led_count (this s1) = Some 0 ∧
        transport_calls s s1 = 1 ∧
        ∀ s2, led_count (this s2) = led_count (this s1) →
              get_led_count s2 = Some (0, s2).
Proof.
  intros Hcache Hget Hfail Hbuf.
  eexists. rewrite (get_led_count_miss s result reply bus' 0) by (by rewrite ?Hbuf).
  split; [reflexivity|]. simpl. split; [reflexivity|]. split.
  - unfold transport_calls. simpl. rewrite length_app. simpl. lia.
  - intros s2 Hs2. by apply get_led_count_hit.
Qed.

(** What [set_colours] sends, for every input: the report class comes from
    the LED count of the device, the number of colours copied is the smaller
    of [max_leds] and the length of the sequence converted to [uint8_t], and
    no store leaves the buffer. *)
Lemma set_colours_message s (h : hid_device) (channel : Z) (colours : list colour) :
  handle (this s) = Some h →
  ∃ count s1 msg result bus',
    get_led_count s = Some (count, s1) ∧
    (let '(report_id, max_leds) := determine_report_id (count * 3) in
     let copied := Z.to_nat (Z.min (u8 (Z.of_nat (length colours))) max_leds) in
     msg = [report_id; u8 channel] ++ grb_bytes (take copied colours)
             ++ replicate (3 * (Z.to_nat max_leds - copied)) 0 ∧
     Z.of_nat (length msg) = max_leds * 3 + 2) ∧
    hid_send_feature_report (Some h) msg (bus s1) = (result, bus') ∧
    set_colours channel colours s
    = Some (bool_decide (result ≠ -1),
            State (this s1) bus' (calls s1 ++ [hid_send (Some h) msg])).
Proof.
  intros Hh.
  destruct (get_led_count_total s) as (count & s1 & Hget & _ & _ & _).
  pose proof (determine_report_id_max_leds (count * 3)) as Hmax.
  unfold set_colours. run. rewrite Hh, Hget. cbn beta iota.
  destruct (determine_report_id (count * 3)) as [report_id max_leds] eqn:Hclass.
  simpl in Hmax.
  set (copied := Z.to_nat (Z.min (u8 (Z.of_nat (length colours))) max_leds)).
  assert (copied ≤ length colours)%nat as Hlen.
  { subst copied. unfold u8.
    pose proof (Z.mod_le (Z.of_nat (length colours)) 256). lia. }
  assert (copied ≤ Z.to_nat max_leds)%nat as Hcap by (subst copied; lia).
  replace (Z.to_nat (max_leds * 3 + 2)) with (S (S (3 * Z.to_nat max_leds))) by lia.
  cbn [replicate]. set (zeros := replicate (3 * Z.to_nat max_leds) 0).
  pose proof (store_middle [] (0 :: zeros) 0 report_id 0 eq_refl) as Hid.
  pose proof (store_middle [report_id] zeros 0 (u8 channel) 1 eq_refl) as Hch.
  cbn [app] in Hid, Hch. rewrite Hid. cbn beta iota. rewrite Hch. cbn beta iota.
  subst zeros.
  pose proof (copy_colours_spec copied [] colours [report_id; u8 channel]
                (3 * Z.to_nat max_leds)) as Hloop.
  cbn [app length] in Hloop. change (Z.of_nat 0) with 0 in Hloop.
  change (Z.of_nat 2) with 2 in Hloop.
  rewrite Hloop by lia. cbn beta iota.
  destruct (hid_send_feature_report (Some h) _ (bus s1)) as [result bus'] eqn:Hsend.
  eexists count, s1, _, result, bus'. rewrite Hclass.
  split; [reflexivity|]. split; [|split; [exact Hsend|]].
  - split.
    + replace (3 * Z.to_nat max_leds - 3 * copied)%nat
        with (3 * (Z.to_nat max_leds - copied))%nat by lia.
      reflexivity.
    + cbn [length]. rewrite length_app, length_replicate.
      rewrite length_grb_bytes, length_take_le by done. lia.
  - cbn beta iota. by case_decide; rewrite ?bool_decide_true, ?bool_decide_false by tauto.
Qed.

(** For a sequence shorter than 256 the conversion of its length changes
    nothing, and [set_colours] copies the smaller of the length and
    [max_leds] colours. *)
Lemma set_colours_short_sequence s (h : hid_device) (channel : Z) (colours : list colour) :
  handle (this s) = Some h →
  (length colours < 256)%nat →
  ∃ count s1 msg ok s2,
    get_led_count s = Some (count, s1) ∧
    (let '(report_id, max_leds) := determine_report_id (count * 3) in
     let copied := (length colours `min` Z.to_nat max_leds)%nat in
     msg = [report_id; u8 channel] ++ grb_bytes (take copied colours)
             ++ replicate (3 * (Z.to_nat max_leds - copied)) 0 ∧
     Z.of_nat (length msg) = max_leds * 3 + 2) ∧
    set_colours channel colours s = Some (ok, s2) ∧
    calls s2 = calls s1 ++ [hid_send (Some h) msg].
Proof.
  intros Hh Hshort.
  destruct (set_colours_message s h channel colours Hh)
    as (count & s1 & msg & result & bus' & Hget & Hmsg & _ & Hrun).
  exists count, s1, msg. eexists _, _.
  split; [exact Hget|]. split; [|split; [exact Hrun|reflexivity]].
  pose proof (determine_report_id_max_leds (count * 3)) as Hmax.
  destruct (determine_report_id (count * 3)) as [report_id max_leds].
  simpl in Hmax. cbn zeta in Hmsg |- *.
  replace (length colours `min` Z.to_nat max_leds)%nat
    with (Z.to_nat (u8 (Z.of_nat (length colours)) `min` max_leds)); [exact Hmsg|].
  unfold u8. rewrite Z.mod_small by lia. lia.
Qed.

(** The test the sending operations make: with a non-null handle each of
    them answers [false] exactly when the send returned -1, and [true] for
    every other result. *)
Lemma send_result_decides s (h : hid_device) :
  handle (this s) = Some h →
  (∀ mode, ∃ result bus' ok s1,
     hid_send_feature_report (Some h) (build_mode_message mode) (bus s) = (result, bus') ∧
     set_mode mode s = Some (ok, s1) ∧
     calls s1 = calls s ++ [hid_send (Some h) (build_mode_message mode)] ∧
     (ok = false ↔ result = -1) ∧ (0 ≤ result → ok = true)) ∧
  (∀ channel index r g b, ∃ msg result bus' ok s1,
     hid_send_feature_report (Some h) msg (bus s) = (result, bus') ∧
     set_colour channel index r g b s = Some (ok, s1) ∧
     calls s1 = calls s ++ [hid_send (Some h) msg] ∧
     (ok = false ↔ result = -1) ∧ (0 ≤ result → ok = true)) ∧
  (∀ channel colours, ∃ count s0 msg result bus' ok s1,
     get_led_count s = Some (count, s0) ∧
     hid_send_feature_report (Some h) msg (bus s0) = (result, bus') ∧
     set_colours channel colours s = Some (ok, s1) ∧
     calls s1 = calls s0 ++ [hid_send (Some h) msg] ∧
     (ok = false ↔ result = -1) ∧ (0 ≤ result → ok = true)) ∧
  (∀ count, ∃ result bus' ok s1,
     hid_send_feature_report (Some h) (build_count_message count) (bus s) = (result, bus') ∧
     set_led_count count s = Some (ok, s1) ∧
     calls s1 = calls s ++ [hid_send (Some h) (build_count_message count)] ∧
     (ok = false ↔ result = -1) ∧ (0 ≤ result → ok = true)).
Proof.
  intros Hh. split; [|split; [|split]].
  - intros mode. unfold set_mode. run. rewrite Hh.
    destruct (hid_send_feature_report _ _ _) as [result bus'].
    cbn beta iota.
    case_decide; eexists result, bus', _, _; (split; [reflexivity|]);
      (split; [reflexivity|]); simpl; (split; [done|]);
      split; first [done | lia].
  - intros channel index r g b. unfold set_colour. run. rewrite Hh.
    destruct (hid_send_feature_report _ _ _) as [result bus'] eqn:Hsend.
    cbn beta iota.
    case_decide; eexists _, result, bus', _, _; (split; [exact Hsend|]);
      (split; [reflexivity|]); simpl; (split; [done|]);
      split; first [done | lia].
  - intros channel colours.
    destruct (set_colours_message s h channel colours Hh)
      as (count & s0 & msg & result & bus' & Hget & _ & Hsend & ->).
    eexists count, s0, msg, result, bus', _, _.
    split; [exact Hget|]. split; [exact Hsend|]. split; [reflexivity|].
    simpl. split; [done|].
    case_bool_decide; split; first [done | lia].
  - intros count. unfold set_led_count. run. rewrite Hh.
    destruct (hid_send_feature_report _ _ _) as [result bus'].
    cbn beta iota.
    case_decide; eexists result, bus', _, _; (split; [reflexivity|]);
      (split; [reflexivity|]); simpl; (split; [done|]);
      split; first [done | lia].
Qed.

(** C8: given a non-null handle and a send that keeps to hidapi's contract
    (it returns -1 on failure and a non-negative count otherwise), each
    sending operation, [set_mode], [set_colour], [set_colours] and
    [set_led_count], answers [false] exactly when the result of the send is
    negative and [true] exactly when it is non-negative. *)
Theorem send_failure_iff_negative s (h : hid_device) :
  handle (this s) = Some h →
  (∀ mode result bus',
     hid_send_feature_report (Some h) (build_mode_message mode) (bus s)
       = (result, bus') →
     result = -1 ∨ 0 ≤ result →
     ∃ ok s1,
       set_mode mode s = Some (ok, s1) ∧
       calls s1 = calls s ++ [hid_send (Some h) (build_mode_message mode)] ∧
       (ok = false ↔ result < 0) ∧ (ok = true ↔ 0 ≤ result)) ∧
  (∀ channel index r g b, ∃ msg,
     ∀ result bus',
       hid_send_feature_report (Some h) msg (bus s) = (result, bus') →
       result = -1 ∨ 0 ≤ result →
       ∃ ok s1,
         set_colour channel index r g b s = Some (ok, s1) ∧
         calls s1 = calls s ++ [hid_send (Some h) msg] ∧
         (ok = false ↔ result < 0) ∧ (ok = true ↔ 0 ≤ result)) ∧
  (∀ channel colours, ∃ count s0 msg,
     get_led_count s = Some (count, s0) ∧
     ∀ result bus',
       hid_send_feature_report (Some h) msg (bus s0) = (result, bus') →
       result = -1 ∨ 0 ≤ result →
       ∃ ok s1,
         set_colours channel colours s = Some (ok, s1) ∧
         calls s1 = calls s0 ++ [hid_send (Some h) msg] ∧
         (ok = false ↔ result < 0) ∧ (ok = true ↔ 0 ≤ result)) ∧
  (∀ count result bus',
     hid_send_feature_report (Some h) (build_count_message count) (bus s)
       = (result, bus') →
     result = -1 ∨ 0 ≤ result →
     ∃ ok s1,
       set_led_count count s = Some (ok, s1) ∧
       calls s1 = calls s ++ [hid_send (Some h) (build_count_message count)] ∧
       (ok = false ↔ result < 0) ∧ (ok = true ↔ 0 ≤ result)).
Proof.
  intros Hh.
  destruct (send_result_decides s h Hh) as (Hmode & Hcolour & Hcolours & Hcount).
  assert (∀ (ok : bool) result,
            result = -1 ∨ 0 ≤ result →
            (ok = false ↔ result = -1) → (0 ≤ result → ok = true) →
            (ok = false ↔ result < 0) ∧ (ok = true ↔ 0 ≤ result)) as Hsign.
  { intros ok result Hcontract Hiff Hnn.
    assert (result < 0 ↔ result = -1) as Hneg by lia.
    split; [by rewrite Hneg|].
    split; [|exact Hnn]. intros ->.
    destruct Hcontract as [->|]; [|done].
    discriminate (proj2 Hiff eq_refl). }
  split; [|split; [|split]].
  - intros mode result bus' Hsend Hcontract.
    destruct (Hmode mode) as (result0 & bus0 & ok & s1 & Hsend0 & Hrun & Hcalls & Hiff & Hnn).
    rewrite Hsend in Hsend0. injection Hsend0 as <- <-.
    exists ok, s1. split; [exact Hrun|]. split; [exact Hcalls|]. by apply Hsign.
  - intros channel index r g b.
    destruct (Hcolour channel index r g b)
      as (msg & result0 & bus0 & ok & s1 & Hsend0 & Hrun & Hcalls & Hiff & Hnn).
    exists msg. intros result bus' Hsend Hcontract.
    rewrite Hsend in Hsend0. injection Hsend0 as <- <-.
    exists ok, s1. split; [exact Hrun|]. split; [exact Hcalls|]. by apply Hsign.
  - intros channel colours.
    destruct (Hcolours channel colours)
      as (count & s0 & msg & result0 & bus0 & ok & s1 & Hget & Hsend0 & Hrun & Hcalls
          & Hiff & Hnn).
    exists count, s0, msg. split; [exact Hget|].
    intros result bus' Hsend Hcontract.
    rewrite Hsend in Hsend0. injection Hsend0 as <- <-.
    exists ok, s1. split; [exact Hrun|]. split; [exact Hcalls|]. by apply Hsign.
  - intros count result bus' Hsend Hcontract.
    destruct (Hcount count) as (result0 & bus0 & ok & s1 & Hsend0 & Hrun & Hcalls & Hiff & Hnn).
    rewrite Hsend in Hsend0. injection Hsend0 as <- <-.
    exists ok, s1. split; [exact Hrun|]. split; [exact Hcalls|]. by apply Hsign.
Qed.

(** The operations that test the handle answer [false] on a null handle and
    leave the state, hence the log of hidapi calls, as it was. *)
Lemma null_handle_guarded s :
  handle (this s) = None →
  (∀ mode, set_mode mode s = Some (false, s)) ∧
  (∀ channel index r g b, set_colour channel index r g b s = Some (false, s)) ∧
  (∀ channel colours, set_colours channel colours s = Some (false, s)) ∧
  (∀ count, set_led_count count s = Some (false, s)).
Proof.
  intros Hh. unfold set_mode, set_colour, set_colours, set_led_count. run.
  by rewrite Hh.
Qed.

(** C4 fails for the operations that never test the handle: on a null
    handle [get_mode] still sends its mode message, [get_colour] still reads
    its report, and [get_led_count] with the cache unset still reads the
    count; each of them reaches hidapi once, with the null pointer. *)
Theorem null_handle_reaches_hidapi s :
  handle (this s) = None →
  (∃ mode s1, get_mode s = Some (mode, s1) ∧
     calls s1 = calls s ++ [hid_send None (build_mode_message mode_unknown)] ∧
     transport_calls s s1 = 1) ∧
  (∃ colour data s1, get_colour 0 s = Some (colour, s1) ∧
     calls s1 = calls s ++ [hid_get None data] ∧
     transport_calls s s1 = 1) ∧
  (led_count (this s) = None →
   ∃ count s1, get_led_count s = Some (count, s1) ∧
     calls s1 = calls s ++ [hid_get None (build_count_message 0)] ∧
     transport_calls s s1 = 1).
Proof.
  intros Hh. unfold transport_calls. split; [|split].
  - unfold get_mode. run. rewrite Hh.
    destruct (hid_send_feature_report _ _ _) as [result bus'].
    cbn beta iota. case_decide; simpl; eexists _, _;
      (split; [reflexivity|]); simpl; rewrite length_app; simpl; split; [done|lia| done | lia].
  - unfold get_colour. run. rewrite Hh.
    rewrite decide_True by done.
    unfold store. rewrite decide_True by (rewrite length_fmap, length_seq; lia).
    cbn beta iota.
    destruct (hid_get_feature_report _ _ _) as [[result reply] bus'].
    cbn beta iota.
    match goal with |- context [overwrite ?d reply] => set (data := d) end.
    assert (length (overwrite data reply) = 33%nat) as Hlen.
    { rewrite length_overwrite. subst data.
      by rewrite length_insert, length_fmap, length_seq. }
    destruct (at_index_is_Some (overwrite data reply) 1) as [r Hr]; [lia|].
    destruct (at_index_is_Some (overwrite data reply) 2) as [g Hg]; [lia|].
    destruct (at_index_is_Some (overwrite data reply) 3) as [b Hb]; [lia|].
    case_decide; [|rewrite Hr, Hg, Hb]; cbn beta iota; eexists _, data, _;
      (split; [reflexivity|]); simpl; rewrite length_app; simpl; split; [done|lia| done | lia].
  - intros Hcache.
    destruct (hid_get_feature_report (handle (this s)) (build_count_message 0) (bus s))
      as [[result reply] bus'] eqn:Hget.
    destruct (count_reply_byte reply) as [n Hbyte].
    eexists n, _. rewrite (get_led_count_miss s result reply bus' n) by done.
    split; [reflexivity|]. simpl. rewrite Hh, length_app. simpl. split; [done|lia].
Qed.

(** X20: what [get_colour] does for the indices 0 to 63.  [get_colour 0] reads a
    33-byte report whose byte 0 is 0x01 and answers bytes 1, 2, 3 of the
    reply as red, green, blue.  For an index from 1 to 63, [get_colour]
    reads a buffer of [max_leds * 3 + 2] bytes whose byte 0 is the report id
    of the class for [(index + 1) * 3], and answers red from offset
    [index * 3 + 3], green from [index * 3 + 2], blue from [index * 3 + 4].
    When the read returns -1 the answer is black.  In every case hidapi is
    reached once, through the get-feature-report primitive. *)
Theorem get_colour_reply_layout s (index : Z) :
  0 ≤ index ≤ 63 →
  ∃ data,
    (if decide (index = 0)
     then length data = 33%nat ∧ data !! 0%nat = Some 0x01
     else Z.of_nat (length data) = (determine_report_id ((index + 1) * 3)).2 * 3 + 2 ∧
          data !! 0%nat = Some (determine_report_id ((index + 1) * 3)).1) ∧
    ∀ result reply bus',
      hid_get_feature_report (handle (this s)) data (bus s) = (result, reply, bus') →
      ∃ r g b,
        at_index (overwrite data reply) (if decide (index = 0) then 1 else index * 3 + 3)
          = Some r ∧
        at_index (overwrite data reply) (if decide (index = 0) then 2 else index * 3 + 2)
          = Some g ∧
        at_index (overwrite data reply) (if decide (index = 0) then 3 else index * 3 + 4)
          = Some b ∧
        get_colour index s
        = Some (if decide (result = -1) then black else Colour r g b,
                State (this s) bus' (calls s ++ [hid_get (handle (this s)) data])).
Proof.
  intros Hindex. unfold get_colour. run.
  destruct (decide (index = 0)) as [->|Hne].
  - unfold store. rewrite decide_True by (rewrite length_fmap, length_seq; lia).
    cbn beta iota.
    match goal with |- context [hid_get_feature_report _ ?d _] => set (data := d) end.
    assert (length data = 33%nat) as Hlen
      by (subst data; by rewrite length_insert, length_fmap, length_seq).
    exists data. split; [split; [exact Hlen|done]|].
    intros result reply bus' ->. cbn beta iota.
    assert (length (overwrite data reply) = 33%nat) as Hlen'
      by (by rewrite length_overwrite).
    destruct (at_index_is_Some (overwrite data reply) 1) as [r Hr]; [lia|].
    destruct (at_index_is_Some (overwrite data reply) 2) as [g Hg]; [lia|].
    destruct (at_index_is_Some (overwrite data reply) 3) as [b Hb]; [lia|].
    exists r, g, b. rewrite Hr, Hg, Hb. cbn beta iota.
    do 3 (split; [reflexivity|]). by case_decide.
  - pose proof (get_colour_offsets_inside index ltac:(lia)) as Hinside.
    rewrite int_value_fits by (unfold INT_MIN, INT_MAX; lia). cbn beta iota.
    destruct (determine_report_id ((index + 1) * 3)) as [report_id max_leds].
    simpl in Hinside. cbn beta iota. cbn [fst snd].
    unfold store. rewrite decide_True by (rewrite length_replicate; lia).
    cbn beta iota.
    match goal with |- context [hid_get_feature_report _ ?d _] => set (data := d) end.
    assert (Z.of_nat (length data) = max_leds * 3 + 2) as Hlen
      by (subst data; rewrite length_insert, length_replicate; lia).
    exists data. split.
    { split; [exact Hlen|]. subst data.
      apply list_lookup_insert_eq. rewrite length_replicate. lia. }
    intros result reply bus' ->. cbn beta iota.
    assert (Z.of_nat (length (overwrite data reply)) = max_leds * 3 + 2) as Hlen'
      by (by rewrite length_overwrite).
    destruct (at_index_is_Some (overwrite data reply) (index * 3 + 3)) as [r Hr]; [lia|].
    destruct (at_index_is_Some (overwrite data reply) (index * 3 + 2)) as [g Hg]; [lia|].
    destruct (at_index_is_Some (overwrite data reply) (index * 3 + 4)) as [b Hb]; [lia|].
    exists r, g, b. rewrite Hr, Hg, Hb. cbn beta iota.
    do 3 (split; [reflexivity|]). by case_decide.
Qed.

(** C6 fails from index 64 on.  The buffer [get_colour] reads into has
    [max_leds * 3 + 2 = 194] bytes there, and the offsets [index * 3 + 3],
    [index * 3 + 2] and [index * 3 + 4] it then reads lie past its end (or
    the byte count [(index + 1) * 3] already overflows [int]): once the read
    of the report has not returned -1, [get_colour] has no defined answer,
    where the claim has it answer the bytes at those offsets. *)
Theorem get_colour_overrun s (index : Z) :
  64 ≤ index →
  (hid_get_feature_report (handle (this s))
     (<[0%nat := (determine_report_id ((index + 1) * 3)).1]>
        (replicate (Z.to_nat ((determine_report_id ((index + 1) * 3)).2 * 3 + 2)) 0))
     (bus s)).1.1 ≠ -1 →
  get_colour index s = None.
Proof.
  intros Hindex. unfold get_colour. run.
  rewrite decide_False by lia.
  destruct (decide (INT_MIN ≤ (index + 1) * 3 ≤ INT_MAX)) as [Hint|Hint];
    [|by rewrite int_value_overflow].
  rewrite int_value_fits by done. cbn beta iota.
  pose proof (get_colour_offsets_beyond index Hindex) as Hbeyond.
  pose proof (determine_report_id_max_leds ((index + 1) * 3)) as Hmax.
  destruct (determine_report_id ((index + 1) * 3)) as [report_id max_leds].
  simpl in Hbeyond, Hmax. cbn beta iota. cbn [fst snd].
  unfold store. rewrite decide_True by (rewrite length_replicate; lia).
  cbn beta iota. change (Z.to_nat 0) with 0%nat.
  match goal with |- context [hid_get_feature_report _ ?d _] => set (data := d) end.
  destruct (hid_get_feature_report _ data _) as [[result reply] bus'].
  simpl. intros Hresult. rewrite decide_False by done.
  rewrite (at_index_beyond (overwrite data reply) (index * 3 + 3)); [done|].
  rewrite length_overwrite. subst data.
  rewrite length_insert, length_replicate. lia.
Qed.

End FacadeProperties.

(** ** The facade on the scripted transport *)

Section OnTheBench.
#[local] Existing Instance scripted.
#[local] Existing Instance bench.

(** C3 fails for a sequence of 256 colours.  The device reports 8 LEDs, so
    the class is (6, 8) and the buffer has 26 bytes; the length 256 becomes
    0 when converted to [uint8_t], the loop does not run, and the message
    sent carries no colour at all, where the first 8 colours were due. *)
Theorem set_colours_256_copies_none :
  set_colours 3 (replicate 256 (Colour 1 2 3)) (fresh (Some 1%nat) [(2, [0x81; 8])])
  = Some (true,
          State (Device (Some 1%nat) 0 (Some 8)) []
                [hid_get (Some 1%nat) [0x81; 0];
                 hid_send (Some 1%nat) ([6; 3] ++ replicate 24 0)]) ∧
  [6; 3] ++ replicate 24 0
  ≠ [6; 3] ++ grb_bytes (take (Z.to_nat (256 `min` 8)) (replicate 256 (Colour 1 2 3))).
Proof.
  split.
  - vm_compute. reflexivity.
  - vm_compute. discriminate.
Qed.

Lemma null_handle_reaches_hidapi_witness :
  ∃ mode s1, get_mode (fresh None []) = Some (mode, s1) ∧
    calls s1 = calls (fresh None []) ++ [hid_send None (build_mode_message mode_unknown)] ∧
    transport_calls (fresh None []) s1 = 1.
Proof.
  exact (proj1 (null_handle_reaches_hidapi (fresh None []) eq_refl)).
Defined.

Lemma get_led_count_query_witness :
  ∃ n, at_index (overwrite [0x81; 0] [0x81; 8]) 1 = Some n ∧
       get_led_count (fresh (Some 1%nat) [(2, [0x81; 8])])
       = Some (n, State (Device (Some 1%nat) 0 (Some n)) []
                        [hid_get (Some 1%nat) [0x81; 0]]).
Proof.
  exact (get_led_count_query (fresh (Some 1%nat) [(2, [0x81; 8])]) 2 [0x81; 8] []
           eq_refl eq_refl).
Defined.

(** C5, as the spec words it, fails: on a fresh device the count query is
    not issued through the send primitive. *)
Lemma get_led_count_not_via_send :
  ¬ ∃ n s1, get_led_count (fresh (Some 1%nat) [(2, [0x81; 8])]) = Some (n, s1) ∧
            calls s1 = [hid_send (Some 1%nat) [0x81; 0]].
Proof.
  intros (n & s1 & Hrun & Hcalls).
  vm_compute in Hrun. injection Hrun as _ <-. discriminate Hcalls.
Qed.

Lemma get_colour_reply_layout_witness :
  ∃ data,
    (Z.of_nat (length data) = 26 ∧ data !! 0%nat = Some 6) ∧
    ∀ result reply bus',
      hid_get_feature_report (Some 1%nat) data [(26, [6; 0; 0; 0; 0; 20; 10; 30])]
        = (result, reply, bus') →
      ∃ r g b,
        at_index (overwrite data reply) 6 = Some r ∧
        at_index (overwrite data reply) 5 = Some g ∧
        at_index (overwrite data reply) 7 = Some b ∧
        get_colour 1 (fresh (Some 1%nat) [(26, [6; 0; 0; 0; 0; 20; 10; 30])])
        = Some (if decide (result = -1) then black else Colour r g b,
                State (Device (Some 1%nat) 0 None) bus' [hid_get (Some 1%nat) data]).
Proof.
  refine (get_colour_reply_layout
            (fresh (Some 1%nat) [(26, [6; 0; 0; 0; 0; 20; 10; 30])]) 1 _).
  lia.
Defined.

Lemma get_colour_overrun_witness :
  get_colour 100 (fresh (Some 1%nat) [(194, replicate 200 7)]) = None.
Proof.
  refine (get_colour_overrun (fresh (Some 1%nat) [(194, replicate 200 7)]) 100 _ _).
  - lia.
  - simpl. lia.
Defined.

Lemma get_led_count_memoised_witness :
  (∃ n s1,
     get_led_count (fresh (Some 1%nat) [(2, [0x81; 8])]) = Some (n, s1) ∧
     get_led_count s1 = Some (n, s1)) ∧
  (∃ n s1 s2,
     get_led_count (fresh (Some 1%nat) [(2, [0x81; 8])]) = Some (n, s1) ∧
     get_led_count s1 = Some (n, s2) ∧
     transport_calls (fresh (Some 1%nat) [(2, [0x81; 8])]) s1 = 1 ∧
     transport_calls s1 s2 = 0 ∧
     transport_calls (fresh (Some 1%nat) [(2, [0x81; 8])]) s2 = 1) ∧
  (∃ s1 s2,
     set_led_count 5 (fresh (Some 1%nat) [(2, [])]) = Some (true, s1) ∧
     transport_calls (fresh (Some 1%nat) [(2, [])]) s1 = 1 ∧
     get_led_count s1 = Some (5, s2) ∧
     transport_calls s1 s2 = 0).
Proof.
  split; [|split].
  - exact (proj1 (get_led_count_memoised (fresh (Some 1%nat) [(2, [0x81; 8])]))).
  - exact (proj1 (proj2 (get_led_count_memoised (fresh (Some 1%nat) [(2, [0x81; 8])])))
             eq_refl).
  - refine (proj2 (proj2 (proj2 (get_led_count_memoised
                                   (fresh (Some 1%nat) [(2, [])]))))
              1%nat 5 2 [] eq_refl eq_refl _).
    lia.
Defined.

Lemma send_failure_iff_negative_witness :
  (∃ ok s1,
     set_mode 1 (fresh (Some 1%nat) [(-1, [])]) = Some (ok, s1) ∧
     calls s1 = calls (fresh (Some 1%nat) [(-1, [])])
                ++ [hid_send (Some 1%nat) (build_mode_message 1)] ∧
     (ok = false ↔ -1 < 0) ∧ (ok = true ↔ 0 ≤ -1)) ∧
  (∃ ok s1,
     set_led_count 8 (fresh (Some 1%nat) [(2, [])]) = Some (ok, s1) ∧
     calls s1 = calls (fresh (Some 1%nat) [(2, [])])
                ++ [hid_send (Some 1%nat) (build_count_message 8)] ∧
     (ok = false ↔ 2 < 0) ∧ (ok = true ↔ 0 ≤ 2)).
Proof.
  split.
  - refine (proj1 (send_failure_iff_negative (fresh (Some 1%nat) [(-1, [])]) 1%nat
                     eq_refl) 1 (-1) [] eq_refl _).
    left. reflexivity.
  - refine (proj2 (proj2 (proj2 (send_failure_iff_negative
                     (fresh (Some 1%nat) [(2, [])]) 1%nat eq_refl))) 8 2 [] eq_refl _).
    right. lia.
Defined.

(** C9 fails at index 64.  The class for [(64 + 1) * 3 = 195] bytes is
    (10, 64), so the buffer has 194 bytes, offsets 0 to 193, while the three
    reads are at offsets 195, 194 and 196; once the read of the report has
    succeeded [get_colour 64] has no defined answer. *)
Theorem get_colour_64_reads_past_buffer :
  determine_report_id ((64 + 1) * 3) = (10, 64) ∧
  (64 * 3 + 3 = 195 ∧ 64 * 3 + 2 = 194 ∧ 64 * 3 + 4 = 196 ∧ 64 * 3 + 2 = 194) ∧
  length (overwrite ([10] ++ replicate 193 0) (replicate 194 7)) = 194%nat ∧
  at_index (overwrite ([10] ++ replicate 193 0) (replicate 194 7)) 195 = None ∧
  at_index (overwrite ([10] ++ replicate 193 0) (replicate 194 7)) 194 = None ∧
  at_index (overwrite ([10] ++ replicate 193 0) (replicate 194 7)) 196 = None ∧
  get_colour 64 (fresh (Some 1%nat) [(194, replicate 194 7)]) = None ∧
  get_colour 63 (fresh (Some 1%nat) [(194, replicate 194 7)])
  = Some (Colour 7 7 7,
          State (Device (Some 1%nat) 0 None) []
                [hid_get (Some 1%nat) ([9] ++ replicate 193 0)]).
Proof.
  repeat split; vm_compute; reflexivity.
Qed.

Lemma get_led_count_failed_query_witness :
  ∃ s1, get_led_count (fresh (Some 1%nat) [(-1, [])]) = Some (0, s1) ∧
        led_count (this s1) = Some 0 ∧
        transport_calls (fresh (Some 1%nat) [(-1, [])]) s1 = 1 ∧
        ∀ s2, led_count (this s2) = led_count (this s1) →
              get_led_count s2 = Some (0, s2).
Proof.
  refine (get_led_count_failed_query (fresh (Some 1%nat) [(-1, [])]) (-1) [] []
            _ _ _ _); [reflexivity | reflexivity | lia | reflexivity].
Defined.

End OnTheBench.

(** * Further properties *)

(** ** The codec *)

Lemma u8_range (z : Z) : 0 ≤ u8 z < 256.
Proof. unfold u8. apply Z.mod_pos_bound. lia. Qed.

Lemma u8_byte (z : Z) : 0 ≤ z < 256 → u8 z = z.
Proof. intros Hz. unfold u8. by apply Z.mod_small. Qed.

Lemma u8_u8 (z : Z) : u8 (u8 z) = u8 z.
Proof. apply u8_byte, u8_range. Qed.

(** X1: [rgb_to_char] keeps the low eight bits of each argument, so a value
    outside 0..255 wraps (300 becomes 44) and a byte passes unchanged. *)
Theorem rgb_to_char_low_bits (r g b : Z) :
  rgb_to_char r g b = Array3 (r `mod` 256) (g `mod` 256) (b `mod` 256) ∧
  (0 ≤ r < 256 → 0 ≤ g < 256 → 0 ≤ b < 256 → rgb_to_char r g b = Array3 r g b).
Proof.
  assert (∀ z, u8 (Z.land z 0xff) = z `mod` 256) as Hmask.
  { intros z. change 0xff with (Z.ones 8).
    rewrite Z.land_ones by lia. change (2 ^ 8) with 256. apply u8_u8. }
  unfold rgb_to_char. rewrite !Hmask. split; [done|].
  intros Hr Hg Hb. by rewrite !Z.mod_small.
Qed.

Lemma rgb_to_char_low_bits_witness :
  rgb_to_char 300 (-1) 256 = Array3 44 255 0 ∧
  rgb_to_char 255 128 7 = Array3 255 128 7.
Proof.
  split.
  - exact (proj1 (rgb_to_char_low_bits 300 (-1) 256)).
  - refine (proj2 (rgb_to_char_low_bits 255 128 7) _ _ _); lia.
Defined.

(** X2: a control message determines the LED it addresses and the colour
    it carries: two calls of [build_control_message] that give the same
    bytes were given the same index, channel and colour. *)
Theorem build_control_message_injective (index channel index' channel' : Z)
    (color color' : array3) :
  build_control_message index channel color
  = build_control_message index' channel' color' →
  index = index' ∧ channel = channel' ∧ color = color'.
Proof.
  unfold build_control_message. destruct color, color'.
  do 2 case_decide; simpl; intros [=]; subst; intuition congruence.
Qed.

Lemma build_control_message_injective_witness :
  5 = 5 ∧ 2 = 2 ∧ Array3 255 128 7 = Array3 255 128 7.
Proof.
  exact (build_control_message_injective 5 2 5 2 (Array3 255 128 7) (Array3 255 128 7)
           eq_refl).
Defined.

(** X3: the report class holds the bytes asked for up to 64 LEDs (192
    bytes); above that its capacity stays at 64 LEDs, so the buffer built
    from it has 26, 50, 98 or 194 bytes and never more. *)
Theorem determine_report_id_capacity (count : Z) :
  (count ≤ 192 → count ≤ (determine_report_id count).2 * 3) ∧
  (192 < count → (determine_report_id count).2 = 64) ∧
  ((determine_report_id count).2 * 3 + 2 = 26 ∨
   (determine_report_id count).2 * 3 + 2 = 50 ∨
   (determine_report_id count).2 * 3 + 2 = 98 ∨
   (determine_report_id count).2 * 3 + 2 = 194).
Proof.
  unfold determine_report_id.
  repeat case_decide; simpl; (split; [lia|split; [lia|]]); lia.
Qed.

Lemma determine_report_id_capacity_witness :
  100 ≤ (determine_report_id 100).2 * 3 ∧ (determine_report_id 300).2 = 64.
Proof.
  split.
  - refine (proj1 (determine_report_id_capacity 100) _). lia.
  - refine (proj1 (proj2 (determine_report_id_capacity 300)) _). lia.
Defined.

(** ** The facade: what is sent *)

Section FacadeFurther.
Context {hid : Hidapi} {platform : Platform}.

Implicit Types (s : state) (n result : Z) (reply : list Z).

(** X4: with a non-null handle [set_colour] makes one call, a send, and
    leaves the device object alone.  Its [int] arguments are converted to
    [uint8_t] first, so the message is [0x01, R, G, B] when index and channel
    are both multiples of 256 (index 256 addresses LED 0), and
    [0x05, channel, index, R, G, B] otherwise, each value modulo 256. *)
Theorem set_colour_wire s (h : hid_device) (channel index r g b : Z) :
  handle (this s) = Some h →
  ∃ ok s1,
    set_colour channel index r g b s = Some (ok, s1) ∧
    this s1 = this s ∧
    calls s1
    = calls s ++
      [hid_send (Some h)
         (if decide (index `mod` 256 = 0 ∧ channel `mod` 256 = 0)
          then [0x01; r `mod` 256; g `mod` 256; b `mod` 256]
          else [0x05; channel `mod` 256; index `mod` 256;
                r `mod` 256; g `mod` 256; b `mod` 256])].
Proof.
  intros Hh. unfold set_colour. run. rewrite Hh.
  destruct (hid_send_feature_report _ _ _) as [result bus'].
  cbn beta iota.
  assert (build_control_message (u8 index) (u8 channel)
            (rgb_to_char (u8 r) (u8 g) (u8 b))
          = if decide (index `mod` 256 = 0 ∧ channel `mod` 256 = 0)
            then [0x01; r `mod` 256; g `mod` 256; b `mod` 256]
            else [0x05; channel `mod` 256; index `mod` 256;
                  r `mod` 256; g `mod` 256; b `mod` 256]) as ->.
  { assert (∀ z, u8 (Z.land (u8 z) 0xff) = z `mod` 256) as Hmask.
    { intros z. change 0xff with (Z.ones 8).
      rewrite Z.land_ones by lia. change (2 ^ 8) with 256.
      unfold u8. by rewrite !Z.mod_mod by lia. }
    unfold build_control_message, rgb_to_char. simpl. rewrite !Hmask.
    unfold u8. by repeat case_decide. }
  case_decide; eexists _, _; (split; [reflexivity|]); by simpl.
Qed.

(** X5: [get_mode] never reads the mode of the device.  It sends the mode
    message built with [mode::unknown] and answers from its own request
    buffer, which a send does not change: [mode::unknown] when the send
    returned -1, and the [uint8_t] conversion of [mode::unknown] otherwise.
    When [mode::unknown] has a value in 0..255 the answer is always
    [mode::unknown]. *)
Theorem get_mode_answers_unknown s :
  (∃ result bus',
     hid_send_feature_report (handle (this s)) [0x04; u8 mode_unknown] (bus s)
       = (result, bus') ∧
     get_mode s
     = Some (if decide (result = -1) then mode_unknown else u8 mode_unknown,
             State (this s) bus'
                   (calls s ++ [hid_send (handle (this s)) [0x04; u8 mode_unknown]]))) ∧
  (0 ≤ mode_unknown < 256 → fst <$> get_mode s = Some mode_unknown).
Proof.
  unfold get_mode. run. unfold build_mode_message.
  destruct (hid_send_feature_report _ _ _) as [result bus'].
  cbn beta iota. split.
  - exists result, bus'. split; [reflexivity|]. by case_decide.
  - intros Hbyte. case_decide; simpl; [done|]. by rewrite u8_byte.
Qed.

(** X6: [set_colours] is memory safe.  With a non-null handle, whatever the
    LED count and the length of the sequence, every store stays inside the
    buffer, and exactly one message is sent after the LED count was
    obtained: it has [max_leds * 3 + 2] bytes (26, 50, 98 or 194) for the
    class of the device's LED count, starts with the report id and the
    channel modulo 256, and the device object is as [get_led_count] left
    it. *)
Theorem set_colours_stays_in_buffer s (h : hid_device) (channel : Z)
    (colours : list colour) :
  handle (this s) = Some h →
  ∃ count s1 msg ok s2,
    get_led_count s = Some (count, s1) ∧
    set_colours channel colours s = Some (ok, s2) ∧
    this s2 = this s1 ∧
    calls s2 = calls s1 ++ [hid_send (Some h) msg] ∧
    Z.of_nat (length msg) = (determine_report_id (count * 3)).2 * 3 + 2 ∧
    Z.of_nat (length msg) ≤ 194 ∧
    msg !! 0%nat = Some (determine_report_id (count * 3)).1 ∧
    msg !! 1%nat = Some (channel `mod` 256).
Proof.
  intros Hh.
  destruct (set_colours_message s h channel colours Hh)
    as (count & s1 & msg & result & bus' & Hget & Hmsg & _ & Hrun).
  exists count, s1, msg. eexists _, _.
  split; [exact Hget|]. split; [exact Hrun|].
  pose proof (determine_report_id_max_leds (count * 3)) as Hmax.
  destruct (determine_report_id (count * 3)) as [report_id max_leds].
  simpl in Hmax. destruct Hmsg as [-> Hlen]. simpl in *.
  repeat split; first [done | lia].
Qed.

(** X7: a [set_led_count] whose send returns -1 answers [false] and leaves
    the cache as it was: a count cached before is still the one
    [get_led_count] answers, without reaching hidapi. *)
Theorem set_led_count_failure_keeps_cache s (h : hid_device) (count : Z)
    (bus' : hid_bus) :
  handle (this s) = Some h →
  hid_send_feature_report (Some h) (build_count_message count) (bus s) = (-1, bus') →
  ∃ s1, set_led_count count s = Some (false, s1) ∧
        this s1 = this s ∧
        ∀ n, led_count (this s) = Some n → get_led_count s1 = Some (n, s1).
Proof.
  intros Hh Hsend. unfold set_led_count. run. rewrite Hh, Hsend.
  cbn beta iota. rewrite decide_True by done.
  eexists. split; [reflexivity|]. split; [done|].
  intros n Hcache. by apply get_led_count_hit.
Qed.

(** X8: after a [set_led_count count] that succeeded, [set_colours] sizes
    its message from [count] and reaches hidapi once only, for the send: the
    device is not asked for its LED count. *)
Theorem set_led_count_sizes_set_colours s (count : Z) s1 (channel : Z)
    (colours : list colour) :
  set_led_count count s = Some (true, s1) →
  ∃ msg ok s2,
    set_colours channel colours s1 = Some (ok, s2) ∧
    calls s2 = calls s1 ++ [hid_send (handle (this s)) msg] ∧
    Z.of_nat (length msg) = (determine_report_id (count * 3)).2 * 3 + 2 ∧
    msg !! 0%nat = Some (determine_report_id (count * 3)).1.
Proof.
  unfold set_led_count. run.
  destruct (handle (this s)) as [h|] eqn:Hh; [|discriminate].
  destruct (hid_send_feature_report _ _ _) as [result bus'].
  cbn beta iota. case_decide; [discriminate|]. intros [= <-].
  match goal with |- context [set_colours _ _ ?st] => set (s1 := st) end.
  assert (handle (this s1) = Some h) as Hh1 by done.
  destruct (set_colours_message s1 h channel colours Hh1)
    as (count' & s1' & msg & result' & bus'' & Hget & Hmsg & _ & Hrun).
  rewrite (get_led_count_hit s1 count eq_refl) in Hget.
  injection Hget as <- <-.
  exists msg. eexists _, _. split; [exact Hrun|]. split; [done|].
  destruct (determine_report_id (count * 3)) as [report_id max_leds].
  destruct Hmsg as [-> Hlen]. simpl in *. split; [lia|done].
Qed.

(** ** The facade: the layout of colours *)

Lemma grb_bytes_lookup (colours : list colour) :
  ∀ (i : nat) (c : colour),
    colours !! i = Some c →
    grb_bytes colours !! (3 * i)%nat = Some (u8 (green c)) ∧
    grb_bytes colours !! (3 * i + 1)%nat = Some (u8 (red c)) ∧
    grb_bytes colours !! (3 * i + 2)%nat = Some (u8 (blue c)).
Proof.
  induction colours as [|c0 colours IH]; intros i c Hi; [done|].
  change (grb_bytes (c0 :: colours))
    with (u8 (green c0) :: u8 (red c0) :: u8 (blue c0) :: grb_bytes colours).
  destruct i as [|i].
  - injection Hi as ->. done.
  - replace (3 * S i)%nat with (S (S (S (3 * i)))) by lia.
    simpl in Hi |- *. by apply IH.
Qed.

(** Where a colour sits in a message [report id, channel, G, R, B, ...]. *)
Lemma colours_report_lookup (report_id channel : Z) (colours : list colour)
    (rest : list Z) (i : nat) (c : colour) :
  colours !! i = Some c →
  ([report_id; channel] ++ grb_bytes colours ++ rest) !! (3 * i + 2)%nat
    = Some (u8 (green c)) ∧
  ([report_id; channel] ++ grb_bytes colours ++ rest) !! (3 * i + 3)%nat
    = Some (u8 (red c)) ∧
  ([report_id; channel] ++ grb_bytes colours ++ rest) !! (3 * i + 4)%nat
    = Some (u8 (blue c)).
Proof.
  intros Hi. destruct (grb_bytes_lookup colours i c Hi) as (Hg & Hr & Hb).
  replace (3 * i + 2)%nat with (S (S (3 * i))) by lia.
  replace (3 * i + 3)%nat with (S (S (3 * i + 1))) by lia.
  replace (3 * i + 4)%nat with (S (S (3 * i + 2))) by lia.
  change (([report_id; channel] ++ grb_bytes colours ++ rest) !! S (S (3 * i)))
    with ((grb_bytes colours ++ rest) !! (3 * i)%nat).
  change (([report_id; channel] ++ grb_bytes colours ++ rest) !! S (S (3 * i + 1)))
    with ((grb_bytes colours ++ rest) !! (3 * i + 1)%nat).
  change (([report_id; channel] ++ grb_bytes colours ++ rest) !! S (S (3 * i + 2)))
    with ((grb_bytes colours ++ rest) !! (3 * i + 2)%nat).
  rewrite !lookup_app_l by (eapply lookup_lt_Some; eassumption).
  done.
Qed.

Lemma at_index_overwrite (buf reply : list Z) (k v : Z) :
  0 ≤ k < Z.of_nat (length buf) →
  reply !! Z.to_nat k = Some v →
  at_index (overwrite buf reply) k = Some (u8 v).
Proof.
  intros Hk Hv. unfold at_index, overwrite.
  rewrite decide_True by lia.
  pose proof (lookup_lt_Some _ _ _ Hv) as Hlt.
  rewrite lookup_app_l by (rewrite length_take, length_fmap; lia).
  rewrite lookup_take_lt by lia.
  by rewrite list_lookup_fmap, Hv.
Qed.

(** The two branches of [get_colour], run up to the read of the report. *)
(** An index whose byte count does not fit [int] has no defined run. *)
Lemma get_colour_int_overflow s (index : Z) :
  ¬ (INT_MIN ≤ (index + 1) * 3 ≤ INT_MAX) → get_colour index s = None.
Proof.
  intros Hint. unfold get_colour. run.
  rewrite decide_False by (intros ->; unfold INT_MIN, INT_MAX in Hint; lia).
  by rewrite int_value_overflow.
Qed.

Lemma get_colour_first_run s result reply bus' :
  let data := <[0%nat := 0x0001]> ((λ i, u8 (indeterminate i)) <$> seq 0 33) in
  hid_get_feature_report (handle (this s)) data (bus s) = (result, reply, bus') →
  get_colour 0 s
  = if decide (result = -1)
    then Some (black, State (this s) bus' (calls s ++ [hid_get (handle (this s)) data]))
    else r ← at_index (overwrite data reply) 1;
         g ← at_index (overwrite data reply) 2;
         b ← at_index (overwrite data reply) 3;
         Some (Colour r g b,
               State (this s) bus' (calls s ++ [hid_get (handle (this s)) data])).
Proof.
  intros data Hget. unfold get_colour. run.
  rewrite decide_True by done.
  unfold store. rewrite decide_True by (rewrite length_fmap, length_seq; lia).
  cbn beta iota. change (Z.to_nat 0) with 0%nat. fold data. rewrite Hget.
  cbn beta iota. case_decide; [done|].
  destruct (at_index (overwrite data reply) 1); [|done].
  destruct (at_index (overwrite data reply) 2); [|done].
  by destruct (at_index (overwrite data reply) 3).
Qed.

Lemma get_colour_indexed_run s (index : Z) result reply bus' :
  index ≠ 0 →
  INT_MIN ≤ (index + 1) * 3 ≤ INT_MAX →
  let data := <[0%nat := (determine_report_id ((index + 1) * 3)).1]>
                (replicate (Z.to_nat ((determine_report_id ((index + 1) * 3)).2 * 3 + 2)) 0) in
  hid_get_feature_report (handle (this s)) data (bus s) = (result, reply, bus') →
  get_colour index s
  = if decide (result = -1)
    then Some (black, State (this s) bus' (calls s ++ [hid_get (handle (this s)) data]))
    else r ← at_index (overwrite data reply) (index * 3 + 3);
         g ← at_index (overwrite data reply) (index * 3 + 2);
         b ← at_index (overwrite data reply) (index * 3 + 4);
         Some (Colour r g b,
               State (this s) bus' (calls s ++ [hid_get (handle (this s)) data])).
Proof.
  intros Hindex Hint data Hget. unfold get_colour. run.
  rewrite decide_False by done.
  rewrite int_value_fits by done. cbn beta iota.
  pose proof (determine_report_id_max_leds ((index + 1) * 3)) as Hmax.
  subst data.
  destruct (determine_report_id ((index + 1) * 3)) as [report_id max_leds].
  simpl in Hmax, Hget. cbn beta iota. cbn [fst snd].
  unfold store. rewrite decide_True by (rewrite length_replicate; lia).
  cbn beta iota. change (Z.to_nat 0) with 0%nat. rewrite Hget.
  cbn beta iota. case_decide; [done|].
  match goal with |- context [overwrite ?d reply] => set (data := d) end.
  destruct (at_index (overwrite data reply) (index * 3 + 3)); [|done].
  destruct (at_index (overwrite data reply) (index * 3 + 2)); [|done].
  by destruct (at_index (overwrite data reply) (index * 3 + 4)).
Qed.

(** X9: for a sequence shorter than 256, [set_colours] puts colour [i], for
    every [i] below both the length and [max_leds], at offsets [3i + 2]
    (green), [3i + 3] (red) and [3i + 4] (blue) of the message it sends;
    colours from [max_leds] on are not in the message, whose length stays
    [max_leds * 3 + 2]. *)
Theorem set_colours_layout s (h : hid_device) (channel : Z) (colours : list colour) :
  handle (this s) = Some h →
  (length colours < 256)%nat →
  ∃ count s1 msg ok s2,
    get_led_count s = Some (count, s1) ∧
    set_colours channel colours s = Some (ok, s2) ∧
    calls s2 = calls s1 ++ [hid_send (Some h) msg] ∧
    Z.of_nat (length msg) = (determine_report_id (count * 3)).2 * 3 + 2 ∧
    ∀ (i : nat) (c : colour),
      colours !! i = Some c →
      Z.of_nat i < (determine_report_id (count * 3)).2 →
      msg !! (3 * i + 2)%nat = Some (u8 (green c)) ∧
      msg !! (3 * i + 3)%nat = Some (u8 (red c)) ∧
      msg !! (3 * i + 4)%nat = Some (u8 (blue c)).
Proof.
  intros Hh Hshort.
  destruct (set_colours_message s h channel colours Hh)
    as (count & s1 & msg & result & bus' & Hget & Hmsg & _ & Hrun).
  exists count, s1, msg. eexists _, _.
  split; [exact Hget|]. split; [exact Hrun|]. split; [reflexivity|].
  destruct (determine_report_id (count * 3)) as [report_id max_leds].
  destruct Hmsg as [-> Hlen]. split; [exact Hlen|].
  intros i c Hi Hcap. simpl in Hcap.
  apply colours_report_lookup.
  pose proof (lookup_lt_Some _ _ _ Hi) as Hlt.
  rewrite lookup_take_lt; [done|].
  unfold u8. rewrite Z.mod_small by lia. lia.
Qed.

(** X10: the layouts of [set_colours] and [get_colour] agree.  When the read
    of [get_colour index], for an index from 1 on that lies inside the
    message, is answered with the message a [set_colours] of fewer than 256
    colours sent, [get_colour] answers colour [index] of the sequence,
    each channel modulo 256. *)
Theorem set_colours_get_colour_round_trip s (h : hid_device) (channel : Z)
    (colours : list colour) (ok : bool) s1 (msg : list Z) (index : Z) (c : colour)
    s' result bus' :
  handle (this s) = Some h →
  (length colours < 256)%nat →
  set_colours channel colours s = Some (ok, s1) →
  list.last (calls s1) = Some (hid_send (Some h) msg) →
  1 ≤ index →
  index * 3 + 4 < Z.of_nat (length msg) →
  colours !! Z.to_nat index = Some c →
  (∀ data, hid_get_feature_report (handle (this s')) data (bus s')
           = (result, msg, bus')) →
  result ≠ -1 →
  fst <$> get_colour index s'
  = Some (Colour (u8 (red c)) (u8 (green c)) (u8 (blue c))).
Proof.
  intros Hh Hshort Hset Hlast Hindex Hinside Hc Hreply Hresult.
  destruct (set_colours_message s h channel colours Hh)
    as (count & s0 & msg0 & result0 & bus0 & _ & Hmsg & _ & Hrun).
  rewrite Hrun in Hset. injection Hset as _ <-.
  simpl in Hlast. rewrite last_snoc in Hlast. injection Hlast as <-.
  pose proof (determine_report_id_max_leds (count * 3)) as Hmax.
  destruct (determine_report_id (count * 3)) as [report_id max_leds].
  simpl in Hmax. destruct Hmsg as [Hmsg Hlen].
  pose proof (lookup_lt_Some _ _ _ Hc) as Hlt.
  assert (take (Z.to_nat (u8 (Z.of_nat (length colours)) `min` max_leds)) colours
          !! Z.to_nat index = Some c) as Hc'.
  { rewrite lookup_take_lt; [done|].
    unfold u8. rewrite Z.mod_small by lia. lia. }
  destruct (colours_report_lookup report_id (u8 channel) _
              (replicate (3 * (Z.to_nat max_leds
                 - Z.to_nat (u8 (Z.of_nat (length colours)) `min` max_leds))) 0)
              _ c Hc') as (Hg & Hr & Hb).
  rewrite <- Hmsg in Hg, Hr, Hb.
  pose proof (get_colour_offsets_inside index ltac:(lia)) as Hdata.
  rewrite (get_colour_indexed_run s' index result msg0 bus')
    by (done || (unfold INT_MIN, INT_MAX; lia)).
  rewrite decide_False by done.
  match goal with |- context [overwrite ?d msg0] => set (data := d) end.
  assert (Z.of_nat (length data)
          = (determine_report_id ((index + 1) * 3)).2 * 3 + 2) as Hdlen.
  { subst data. rewrite length_insert, length_replicate.
    pose proof (determine_report_id_max_leds ((index + 1) * 3)). lia. }
  rewrite (at_index_overwrite data msg0 (index * 3 + 3) (u8 (red c)))
    by (lia || (replace (Z.to_nat (index * 3 + 3))
                  with (3 * Z.to_nat index + 3)%nat by lia; done)).
  rewrite (at_index_overwrite data msg0 (index * 3 + 2) (u8 (green c)))
    by (lia || (replace (Z.to_nat (index * 3 + 2))
                  with (3 * Z.to_nat index + 2)%nat by lia; done)).
  rewrite (at_index_overwrite data msg0 (index * 3 + 4) (u8 (blue c)))
    by (lia || (replace (Z.to_nat (index * 3 + 4))
                  with (3 * Z.to_nat index + 4)%nat by lia; done)).
  simpl. by rewrite !u8_u8.
Qed.

(** X11: the single-LED formats agree too.  When the read of [get_colour 0]
    is answered with a reply that starts with the four bytes
    [set_colour 0 0 r g b] sent, [get_colour 0] answers (r, g, b), each
    modulo 256. *)
Theorem set_colour_get_colour_first_led s (h : hid_device) (r g b : Z)
    (ok : bool) s1 (msg : list Z) s' result reply bus' :
  handle (this s) = Some h →
  set_colour 0 0 r g b s = Some (ok, s1) →
  list.last (calls s1) = Some (hid_send (Some h) msg) →
  take 4 reply = msg →
  (∀ data, hid_get_feature_report (handle (this s')) data (bus s')
           = (result, reply, bus')) →
  result ≠ -1 →
  fst <$> get_colour 0 s' = Some (Colour (u8 r) (u8 g) (u8 b)).
Proof.
  intros Hh Hset Hlast Htake Hreply Hresult.
  unfold set_colour in Hset. revert Hset. run. rewrite Hh.
  destruct (hid_send_feature_report _ _ _) as [result0 bus0].
  cbn beta iota. intros Hset.
  assert (calls s1 = calls s ++ [hid_send (Some h)
            (build_control_message (u8 0) (u8 0)
               (rgb_to_char (u8 r) (u8 g) (u8 b)))]) as Hcalls
    by (case_decide; by injection Hset as _ <-).
  rewrite Hcalls, last_snoc in Hlast. injection Hlast as <-.
  assert (∀ z, u8 (Z.land (u8 z) 0xff) = u8 z) as Hmask.
  { intros z. change 0xff with (Z.ones 8).
    rewrite Z.land_ones by lia. change (2 ^ 8) with 256.
    unfold u8. by rewrite !Z.mod_mod by lia. }
  unfold build_control_message, rgb_to_char in Htake. simpl in Htake.
  rewrite !Hmask in Htake.
  destruct reply as [|b0 [|b1 [|b2 [|b3 reply]]]]; try discriminate.
  injection Htake as -> -> -> ->.
  rewrite (get_colour_first_run s' result _ bus' (Hreply _)).
  rewrite decide_False by done.
  match goal with |- context [overwrite ?d _] => set (data := d) end.
  assert (length data = 33%nat) as Hlen
    by (subst data; by rewrite length_insert, length_fmap, length_seq).
  rewrite (at_index_overwrite data _ 1 (u8 r)) by (lia || done).
  rewrite (at_index_overwrite data _ 2 (u8 g)) by (lia || done).
  rewrite (at_index_overwrite data _ 3 (u8 b)) by (lia || done).
  simpl. by rewrite !u8_u8.
Qed.

(** ** The facade: reads *)

(** X12: when the read of the report returns -1, [get_colour] answers black
    for every index whose byte count [(index + 1) * 3] fits [int], also a
    negative one or one from 64 on: the buffer is not indexed, hidapi was
    reached once, and the device object is as it was. *)
Theorem get_colour_failed_read s (index : Z) :
  INT_MIN ≤ (index + 1) * 3 ≤ INT_MAX →
  (∀ data, (hid_get_feature_report (handle (this s)) data (bus s)).1.1 = -1) →
  ∃ s1, get_colour index s = Some (black, s1) ∧
        this s1 = this s ∧
        transport_calls s s1 = 1.
Proof.
  intros Hint Hfail. unfold transport_calls.
  destruct (decide (index = 0)) as [->|Hindex].
  - specialize (Hfail (<[0%nat := 0x0001]> ((λ i, u8 (indeterminate i)) <$> seq 0 33))).
    destruct (hid_get_feature_report _ _ _) as [[result reply] bus'] eqn:Hget.
    simpl in Hfail. subst result.
    rewrite (get_colour_first_run s _ _ _ Hget). rewrite decide_True by done.
    eexists. split; [reflexivity|]. simpl. rewrite length_app. simpl. split; [done|lia].
  - specialize (Hfail (<[0%nat := (determine_report_id ((index + 1) * 3)).1]>
       (replicate (Z.to_nat ((determine_report_id ((index + 1) * 3)).2 * 3 + 2)) 0))).
    destruct (hid_get_feature_report _ _ _) as [[result reply] bus'] eqn:Hget.
    simpl in Hfail. subst result.
    rewrite (get_colour_indexed_run s index _ _ _ Hindex Hint Hget).
    rewrite decide_True by done.
    eexists. split; [reflexivity|]. simpl. rewrite length_app. simpl. split; [done|lia].
Qed.

(** X13: when the read of the report does not return -1, [get_colour index]
    has a defined answer exactly for the indices 0 to 63: for a negative
    index and from 64 on one of its three reads falls outside the buffer. *)
Theorem get_colour_defined_range s (index : Z) :
  (∀ data, (hid_get_feature_report (handle (this s)) data (bus s)).1.1 ≠ -1) →
  (is_Some (get_colour index s) ↔ 0 ≤ index ≤ 63).
Proof.
  intros Hok.
  destruct (decide (index = 0)) as [->|Hindex].
  - specialize (Hok (<[0%nat := 0x0001]> ((λ i, u8 (indeterminate i)) <$> seq 0 33))).
    destruct (hid_get_feature_report _ _ _) as [[result reply] bus'] eqn:Hget.
    simpl in Hok.
    rewrite (get_colour_first_run s _ _ _ Hget). rewrite decide_False by done.
    match goal with |- context [overwrite ?d reply] => set (data := d) end.
    assert (length (overwrite data reply) = 33%nat) as Hlen.
    { rewrite length_overwrite. subst data.
      by rewrite length_insert, length_fmap, length_seq. }
    destruct (at_index_is_Some (overwrite data reply) 1) as [r ->]; [lia|].
    destruct (at_index_is_Some (overwrite data reply) 2) as [g ->]; [lia|].
    destruct (at_index_is_Some (overwrite data reply) 3) as [b ->]; [lia|].
    simpl. split; [lia|eauto].
  - destruct (decide (INT_MIN ≤ (index + 1) * 3 ≤ INT_MAX)) as [Hint|Hint]; last first.
    { rewrite (get_colour_int_overflow s index Hint).
      split; [by intros [x Hx]|]. unfold INT_MIN, INT_MAX in Hint. lia. }
    specialize (Hok (<[0%nat := (determine_report_id ((index + 1) * 3)).1]>
       (replicate (Z.to_nat ((determine_report_id ((index + 1) * 3)).2 * 3 + 2)) 0))).
    destruct (hid_get_feature_report _ _ _) as [[result reply] bus'] eqn:Hget.
    simpl in Hok.
    rewrite (get_colour_indexed_run s index _ _ _ Hindex Hint Hget).
    rewrite decide_False by done.
    match goal with |- context [overwrite ?d reply] => set (data := d) end.
    assert (Z.of_nat (length (overwrite data reply))
            = (determine_report_id ((index + 1) * 3)).2 * 3 + 2) as Hlen.
    { rewrite length_overwrite. subst data.
      rewrite length_insert, length_replicate.
      pose proof (determine_report_id_max_leds ((index + 1) * 3)). lia. }
    destruct (decide (1 ≤ index ≤ 63)) as [Hin|Hout].
    + pose proof (get_colour_offsets_inside index Hin) as Hinside.
      destruct (at_index_is_Some (overwrite data reply) (index * 3 + 3)) as [r ->]; [lia|].
      destruct (at_index_is_Some (overwrite data reply) (index * 3 + 2)) as [g ->]; [lia|].
      destruct (at_index_is_Some (overwrite data reply) (index * 3 + 4)) as [b ->]; [lia|].
      simpl. split; [lia|eauto].
    + split; [|lia]. intros [x Hx]. exfalso.
      destruct (decide (index < 0)) as [Hneg|Hpos].
      * assert (at_index (overwrite data reply) (index * 3 + 2) = None) as Hg
          by (unfold at_index; rewrite decide_False by lia; done).
        rewrite Hg in Hx.
        by destruct (at_index (overwrite data reply) (index * 3 + 3)).
      * assert (at_index (overwrite data reply) (index * 3 + 3) = None) as Hr.
        { apply at_index_beyond. rewrite Hlen.
          pose proof (determine_report_id_max_leds ((index + 1) * 3)). lia. }
        by rewrite Hr in Hx.
Qed.

(** X14: the LED count [get_led_count] answers is a byte.  Read from the
    device it is byte 1 of the two-byte buffer; answered from a cache that
    holds a byte it is that byte; and the cache it leaves holds the answer. *)
Theorem get_led_count_byte s n s1 :
  (∀ m, led_count (this s) = Some m → 0 ≤ m < 256) →
  get_led_count s = Some (n, s1) →
  0 ≤ n < 256 ∧ led_count (this s1) = Some n.
Proof.
  intros Hcache Hget.
  destruct (led_count (this s)) as [m|] eqn:Hm.
  - rewrite (get_led_count_hit s m Hm) in Hget. injection Hget as <- <-.
    split; [by apply Hcache|done].
  - destruct (hid_get_feature_report (handle (this s)) (build_count_message 0) (bus s))
      as [[result reply] bus'] eqn:Hread.
    destruct (count_reply_byte reply) as [v Hv].
    rewrite (get_led_count_miss s result reply bus' v Hm Hread Hv) in Hget.
    injection Hget as <- <-. split; [|done].
    destruct reply as [|b0 [|b1 reply]]; vm_compute in Hv;
      injection Hv as <-; first [lia | apply (u8_range b1)].
Qed.

(** ** The facade: the whole-strip operations *)

Lemma set_colours_rgb_run s (channel r g b count : Z) s1 :
  get_led_count s = Some (count, s1) →
  set_colours_rgb channel r g b s
  = set_colours channel
      (replicate (Z.to_nat count) (Colour (u8 r) (u8 g) (u8 b))) s1.
Proof.
  intros Hget. unfold set_colours_rgb. run. by rewrite Hget.
Qed.

Lemma grb_bytes_replicate_u8 (k : nat) (r g b : Z) :
  grb_bytes (replicate k (Colour (u8 r) (u8 g) (u8 b)))
  = grb_bytes (replicate k (Colour r g b)).
Proof.
  induction k as [|k IH]; [done|].
  cbn [replicate].
  change (grb_bytes (?c :: ?l))
    with (u8 (green c) :: u8 (red c) :: u8 (blue c) :: grb_bytes l).
  simpl. by rewrite IH, !u8_u8.
Qed.

Lemma grb_bytes_replicate_black (k : nat) :
  grb_bytes (replicate k (Colour 0 0 0)) = replicate (3 * k) 0.
Proof.
  induction k as [|k IH]; [done|].
  replace (3 * S k)%nat with (S (S (S (3 * k)))) by lia.
  cbn [replicate].
  change (grb_bytes (?c :: ?l))
    with (u8 (green c) :: u8 (red c) :: u8 (blue c) :: grb_bytes l).
  by rewrite IH.
Qed.

(** X15: with a non-null handle and a byte in the cache (or none), the
    overload [set_colours(channel, red, green, blue)] sends the colour,
    as G, R, B modulo 256, for the first [min(count, max_leds)] LEDs, where
    [count] is the LED count of the device, and zeros after them: a strip
    of more than 64 LEDs is lit up to LED 64 only. *)
Theorem set_colours_rgb_fills s (h : hid_device) (channel r g b : Z) :
  handle (this s) = Some h →
  (∀ m, led_count (this s) = Some m → 0 ≤ m < 256) →
  ∃ count s1 ok s2,
    get_led_count s = Some (count, s1) ∧
    set_colours_rgb channel r g b s = Some (ok, s2) ∧
    calls s2
    = calls s1 ++
      [hid_send (Some h)
         ([(determine_report_id (count * 3)).1; channel `mod` 256]
          ++ grb_bytes (replicate
                          (Z.to_nat (count `min` (determine_report_id (count * 3)).2))
                          (Colour r g b))
          ++ replicate
               (3 * Z.to_nat ((determine_report_id (count * 3)).2
                              - count `min` (determine_report_id (count * 3)).2))
               0)].
Proof.
  intros Hh Hcache.
  destruct (get_led_count_total s) as (count & s1 & Hget & Hcache1 & Hh1 & _).
  destruct (get_led_count_byte s count s1 Hcache Hget) as [Hbyte _].
  rewrite Hh in Hh1.
  set (colours := replicate (Z.to_nat count) (Colour (u8 r) (u8 g) (u8 b))).
  destruct (set_colours_message s1 h channel colours Hh1)
    as (count' & s1' & msg & result & bus' & Hget' & Hmsg & _ & Hrun).
  rewrite (get_led_count_hit s1 count Hcache1) in Hget'.
  injection Hget' as <- <-.
  exists count, s1. eexists _, _. split; [exact Hget|].
  rewrite (set_colours_rgb_run s channel r g b count s1 Hget). fold colours.
  split; [exact Hrun|]. simpl. do 2 f_equal.
  pose proof (determine_report_id_max_leds (count * 3)) as Hmax.
  destruct (determine_report_id (count * 3)) as [report_id max_leds].
  simpl in Hmax |- *. destruct Hmsg as [-> _].
  subst colours. rewrite length_replicate, Z2Nat.id by lia.
  rewrite (u8_byte count) by done.
  rewrite take_replicate, grb_bytes_replicate_u8.
  replace (Z.to_nat (count `min` max_leds) `min` Z.to_nat count)%nat
    with (Z.to_nat (count `min` max_leds)) by lia.
  replace (3 * (Z.to_nat max_leds - Z.to_nat (count `min` max_leds)))%nat
    with (3 * Z.to_nat (max_leds - count `min` max_leds))%nat by lia.
  done.
Qed.

(** X16: with a non-null handle, [off()] sends one message: the report id of
    the class for the LED count of the device, followed by
    [max_leds * 3 + 1] zero bytes (channel 0 and black for every LED the
    class holds), whatever the LED count is. *)
Theorem off_all_sends_zeros s (h : hid_device) :
  handle (this s) = Some h →
  ∃ count s1 ok s2,
    get_led_count s = Some (count, s1) ∧
    off_all s = Some (ok, s2) ∧
    calls s2
    = calls s1 ++
      [hid_send (Some h)
         ((determine_report_id (count * 3)).1
          :: replicate (Z.to_nat ((determine_report_id (count * 3)).2 * 3 + 1)) 0)].
Proof.
  intros Hh.
  destruct (get_led_count_total s) as (count & s1 & Hget & Hcache1 & Hh1 & _).
  rewrite Hh in Hh1.
  set (colours := replicate (Z.to_nat count) (Colour (u8 0) (u8 0) (u8 0))).
  destruct (set_colours_message s1 h 0 colours Hh1)
    as (count' & s1' & msg & result & bus' & Hget' & Hmsg & _ & Hrun).
  rewrite (get_led_count_hit s1 count Hcache1) in Hget'.
  injection Hget' as <- <-.
  exists count, s1. eexists _, _. split; [exact Hget|].
  unfold off_all. rewrite (set_colours_rgb_run s 0 0 0 0 count s1 Hget). fold colours.
  split; [exact Hrun|]. simpl. do 2 f_equal.
  pose proof (determine_report_id_max_leds (count * 3)) as Hmax.
  destruct (determine_report_id (count * 3)) as [report_id max_leds].
  simpl in Hmax |- *. destruct Hmsg as [-> _].
  subst colours. rewrite length_replicate.
  set (copied := Z.to_nat (u8 (Z.of_nat (Z.to_nat count)) `min` max_leds)).
  assert (copied ≤ Z.to_nat count)%nat as Hle.
  { subst copied. unfold u8.
    pose proof (Z.mod_le (Z.of_nat (Z.to_nat count)) 256). lia. }
  assert (copied ≤ Z.to_nat max_leds)%nat as Hcap by (subst copied; lia).
  rewrite take_replicate. change (u8 0) with 0.
  rewrite grb_bytes_replicate_black, <- replicate_add.
  replace (Z.to_nat (max_leds * 3 + 1))
    with (S (3 * (copied `min` Z.to_nat count)
             + 3 * (Z.to_nat max_leds - copied)))%nat by lia.
  done.
Qed.

(** X17: on a null handle the overload [set_colours(channel, red, green,
    blue)] and [off()] answer [false], but only after they asked for the LED
    count: with a count in the cache hidapi is not reached and the state is
    as it was, with the cache unset hidapi is reached once, for the read of
    the count, with the null pointer. *)
Theorem set_colours_rgb_null_handle s (channel r g b : Z) :
  handle (this s) = None →
  (is_Some (led_count (this s)) →
   set_colours_rgb channel r g b s = Some (false, s) ∧
   off_all s = Some (false, s)) ∧
  (led_count (this s) = None →
   ∃ s1, set_colours_rgb channel r g b s = Some (false, s1) ∧
         off_all s = Some (false, s1) ∧
         calls s1 = calls s ++ [hid_get None (build_count_message 0)]).
Proof.
  intros Hh.
  assert (∀ count s1 ch colours,
            get_led_count s = Some (count, s1) →
            set_colours ch colours s1 = Some (false, s1)) as Hguard.
  { intros count s1 ch colours Hget.
    destruct (get_led_count_total s) as (count' & s1' & Hget' & _ & Hh1 & _).
    rewrite Hget in Hget'. injection Hget' as <- <-.
    unfold set_colours. run. by rewrite Hh1, Hh. }
  split.
  - intros [n Hcache].
    pose proof (get_led_count_hit s n Hcache) as Hget.
    unfold off_all.
    rewrite !(set_colours_rgb_run s _ _ _ _ n s Hget).
    split; by apply (Hguard n).
  - intros Hcache.
    destruct (hid_get_feature_report (handle (this s)) (build_count_message 0) (bus s))
      as [[result reply] bus'] eqn:Hread.
    destruct (count_reply_byte reply) as [n Hbyte].
    pose proof (get_led_count_miss s result reply bus' n Hcache Hread Hbyte) as Hget.
    eexists. unfold off_all.
    rewrite !(set_colours_rgb_run s _ _ _ _ n _ Hget).
    split; [by apply (Hguard n)|]. split; [by apply (Hguard n)|].
    simpl. by rewrite Hh.
Qed.

(** ** The facade: what is left alone *)

(** X18: the operations that do not deal with the LED count leave the
    device object, cache included, as it was: [set_mode], [get_mode],
    [set_colour], [off(channel, index)] and [get_colour]; and [get_type]
    and [is_valid] leave the whole state as it was, hidapi not reached. *)
Theorem device_object_left_alone s :
  (∀ mode ok s1, set_mode mode s = Some (ok, s1) → this s1 = this s) ∧
  (∀ mode s1, get_mode s = Some (mode, s1) → this s1 = this s) ∧
  (∀ channel index r g b ok s1,
     set_colour channel index r g b s = Some (ok, s1) → this s1 = this s) ∧
  (∀ channel index ok s1, off channel index s = Some (ok, s1) → this s1 = this s) ∧
  (∀ index colour s1, get_colour index s = Some (colour, s1) → this s1 = this s) ∧
  get_type s = Some (type (this s), s) ∧
  is_valid s = Some (bool_decide (handle (this s) ≠ None), s).
Proof.
  repeat apply conj; try done.
  - intros mode ok s1. unfold set_mode. run.
    destruct (handle (this s)); [|by intros [= _ <-]].
    destruct (hid_send_feature_report _ _ _) as [result bus'].
    cbn beta iota. case_decide; by intros [= _ <-].
  - intros mode s1. unfold get_mode. run.
    destruct (hid_send_feature_report _ _ _) as [result bus'].
    cbn beta iota. case_decide; simpl; by intros [= _ <-].
  - intros channel index r g b ok s1. unfold set_colour. run.
    destruct (handle (this s)); [|by intros [= _ <-]].
    destruct (hid_send_feature_report _ _ _) as [result bus'].
    cbn beta iota. case_decide; by intros [= _ <-].
  - intros channel index ok s1. unfold off, set_colour. run.
    destruct (handle (this s)); [|by intros [= _ <-]].
    destruct (hid_send_feature_report _ _ _) as [result bus'].
    cbn beta iota. case_decide; by intros [= _ <-].
  - intros index colour s1.
    destruct (decide (index = 0)) as [->|Hindex].
    + destruct (hid_get_feature_report (handle (this s))
                  (<[0%nat := 0x0001]> ((λ i, u8 (indeterminate i)) <$> seq 0 33))
                  (bus s)) as [[result reply] bus'] eqn:Hget.
      rewrite (get_colour_first_run s _ _ _ Hget).
      case_decide; [by intros [= _ <-]|].
      match goal with |- context [overwrite ?d reply] => set (data := d) end.
      destruct (at_index (overwrite data reply) 1); simpl; [|done].
      destruct (at_index (overwrite data reply) 2); simpl; [|done].
      destruct (at_index (overwrite data reply) 3); simpl; [|done].
      by intros [= _ <-].
    + destruct (decide (INT_MIN ≤ (index + 1) * 3 ≤ INT_MAX)) as [Hint|Hint];
        [|by rewrite (get_colour_int_overflow s index Hint)].
      destruct (hid_get_feature_report (handle (this s))
                  (<[0%nat := (determine_report_id ((index + 1) * 3)).1]>
                     (replicate (Z.to_nat ((determine_report_id ((index + 1) * 3)).2 * 3 + 2)) 0))
                  (bus s)) as [[result reply] bus'] eqn:Hget.
      rewrite (get_colour_indexed_run s index _ _ _ Hindex Hint Hget).
      case_decide; [by intros [= _ <-]|].
      match goal with |- context [overwrite ?d reply] => set (data := d) end.
      destruct (at_index (overwrite data reply) (index * 3 + 3)); simpl; [|done].
      destruct (at_index (overwrite data reply) (index * 3 + 2)); simpl; [|done].
      destruct (at_index (overwrite data reply) (index * 3 + 4)); simpl; [|done].
      by intros [= _ <-].
Qed.

(** X19: [is_valid] tells which operations will refuse to run: when it
    answers [false], [set_mode], [set_colour], [off(channel, index)],
    [set_colours(channel, colours)] and [set_led_count] answer [false] and
    leave the state, hence the log of hidapi calls, as it was. *)
Theorem is_valid_false_refuses s :
  is_valid s = Some (false, s) →
  (∀ mode, set_mode mode s = Some (false, s)) ∧
  (∀ channel index r g b, set_colour channel index r g b s = Some (false, s)) ∧
  (∀ channel index, off channel index s = Some (false, s)) ∧
  (∀ channel colours, set_colours channel colours s = Some (false, s)) ∧
  (∀ count, set_led_count count s = Some (false, s)).
Proof.
  unfold is_valid. run. intros [= Hvalid].
  apply bool_decide_eq_false in Hvalid.
  assert (handle (this s) = None) as Hh
    by (destruct (handle (this s)); [by destruct Hvalid|done]).
  unfold off, set_mode, set_colour, set_colours, set_led_count. run.
  by rewrite Hh.
Qed.

End FacadeFurther.

(** ** The further properties on the scripted transport *)

Section FurtherOnTheBench.
#[local] Existing Instance scripted.
#[local] Existing Instance bench.

Lemma set_colour_wire_witness :
  ∃ ok s1,
    set_colour 0 256 1 2 300 (fresh (Some 1%nat) []) = Some (ok, s1) ∧
    this s1 = this (fresh (Some 1%nat) []) ∧
    calls s1 = [hid_send (Some 1%nat) [0x01; 1; 2; 44]].
Proof.
  exact (set_colour_wire (fresh (Some 1%nat) []) 1%nat 0 256 1 2 300 eq_refl).
Defined.

Lemma get_mode_answers_unknown_witness :
  fst <$> get_mode (fresh (Some 1%nat) [(2, [])]) = Some mode_unknown.
Proof.
  refine (proj2 (get_mode_answers_unknown (fresh (Some 1%nat) [(2, [])])) _).
  simpl. lia.
Defined.

Lemma set_colours_stays_in_buffer_witness :
  ∃ count s1 msg ok s2,
    get_led_count (fresh (Some 1%nat) [(2, [0x81; 200])]) = Some (count, s1) ∧
    set_colours 1 (replicate 300 (Colour 1 2 3)) (fresh (Some 1%nat) [(2, [0x81; 200])])
      = Some (ok, s2) ∧
    this s2 = this s1 ∧
    calls s2 = calls s1 ++ [hid_send (Some 1%nat) msg] ∧
    Z.of_nat (length msg) = (determine_report_id (count * 3)).2 * 3 + 2 ∧
    Z.of_nat (length msg) ≤ 194 ∧
    msg !! 0%nat = Some (determine_report_id (count * 3)).1 ∧
    msg !! 1%nat = Some (1 `mod` 256).
Proof.
  exact (set_colours_stays_in_buffer (fresh (Some 1%nat) [(2, [0x81; 200])]) 1%nat 1
           (replicate 300 (Colour 1 2 3)) eq_refl).
Defined.

Lemma set_led_count_failure_keeps_cache_witness :
  ∃ s1, set_led_count 9 (State (Device (Some 1%nat) 0 (Some 8)) [(-1, [])] [])
        = Some (false, s1) ∧
        this s1 = Device (Some 1%nat) 0 (Some 8) ∧
        ∀ n, Some 8 = Some n → get_led_count s1 = Some (n, s1).
Proof.
  exact (set_led_count_failure_keeps_cache
           (State (Device (Some 1%nat) 0 (Some 8)) [(-1, [])] []) 1%nat 9 []
           eq_refl eq_refl).
Defined.

Lemma set_led_count_sizes_set_colours_witness :
  ∃ msg ok s2,
    set_colours 0 [Colour 1 2 3]
      (State (Device (Some 1%nat) 0 (Some 16)) [] [hid_send (Some 1%nat) [0x81; 16]])
    = Some (ok, s2) ∧
    calls s2 = [hid_send (Some 1%nat) [0x81; 16]] ++ [hid_send (Some 1%nat) msg] ∧
    Z.of_nat (length msg) = 50 ∧
    msg !! 0%nat = Some 7.
Proof.
  exact (set_led_count_sizes_set_colours (fresh (Some 1%nat) [(2, [])]) 16 _ 0
           [Colour 1 2 3] eq_refl).
Defined.

Lemma set_colours_layout_witness :
  ∃ count s1 msg ok s2,
    get_led_count (fresh (Some 1%nat) [(2, [0x81; 8])]) = Some (count, s1) ∧
    set_colours 0 [Colour 1 2 3; Colour 4 5 6] (fresh (Some 1%nat) [(2, [0x81; 8])])
      = Some (ok, s2) ∧
    calls s2 = calls s1 ++ [hid_send (Some 1%nat) msg] ∧
    Z.of_nat (length msg) = (determine_report_id (count * 3)).2 * 3 + 2 ∧
    ∀ (i : nat) (c : colour),
      [Colour 1 2 3; Colour 4 5 6] !! i = Some c →
      Z.of_nat i < (determine_report_id (count * 3)).2 →
      msg !! (3 * i + 2)%nat = Some (u8 (green c)) ∧
      msg !! (3 * i + 3)%nat = Some (u8 (red c)) ∧
      msg !! (3 * i + 4)%nat = Some (u8 (blue c)).
Proof.
  refine (set_colours_layout (fresh (Some 1%nat) [(2, [0x81; 8])]) 1%nat 0
            [Colour 1 2 3; Colour 4 5 6] eq_refl _).
  simpl. lia.
Defined.

Lemma set_colours_get_colour_round_trip_witness :
  fst <$> get_colour 1
            (State (Device (Some 1%nat) 0 (Some 8))
                   [(26, [6; 0; 2; 1; 3; 5; 4; 6] ++ replicate 18 0)]
                   [hid_get (Some 1%nat) [0x81; 0];
                    hid_send (Some 1%nat) ([6; 0; 2; 1; 3; 5; 4; 6] ++ replicate 18 0)])
  = Some (Colour (u8 4) (u8 5) (u8 6)).
Proof.
  refine (set_colours_get_colour_round_trip
            (fresh (Some 1%nat)
               [(2, [0x81; 8]); (26, []);
                (26, [6; 0; 2; 1; 3; 5; 4; 6] ++ replicate 18 0)])
            1%nat 0 [Colour 1 2 3; Colour 4 5 6] true _
            ([6; 0; 2; 1; 3; 5; 4; 6] ++ replicate 18 0) 1 (Colour 4 5 6)
            _ 26 [] _ _ _ _ _ _ _ _ _).
  - reflexivity.
  - simpl. lia.
  - vm_compute. reflexivity.
  - reflexivity.
  - lia.
  - simpl. lia.
  - reflexivity.
  - intros data. reflexivity.
  - lia.
Defined.

Lemma set_colour_get_colour_first_led_witness :
  fst <$> get_colour 0
            (State (Device (Some 1%nat) 0 None)
                   [(33, [1; 10; 20; 30; 0; 0])]
                   [hid_send (Some 1%nat) [1; 10; 20; 30]])
  = Some (Colour (u8 10) (u8 20) (u8 30)).
Proof.
  refine (set_colour_get_colour_first_led
            (fresh (Some 1%nat) [(4, []); (33, [1; 10; 20; 30; 0; 0])])
            1%nat 10 20 30 true _ [1; 10; 20; 30] _ 33 [1; 10; 20; 30; 0; 0] []
            _ _ _ _ _ _).
  - reflexivity.
  - vm_compute. reflexivity.
  - reflexivity.
  - reflexivity.
  - intros data. reflexivity.
  - lia.
Defined.

Lemma get_colour_failed_read_witness :
  ∃ s1, get_colour 100 (fresh (Some 1%nat) [(-1, [])]) = Some (black, s1) ∧
        this s1 = this (fresh (Some 1%nat) [(-1, [])]) ∧
        transport_calls (fresh (Some 1%nat) [(-1, [])]) s1 = 1.
Proof.
  refine (get_colour_failed_read (fresh (Some 1%nat) [(-1, [])]) 100 _ _).
  - unfold INT_MIN, INT_MAX. lia.
  - intros data. reflexivity.
Defined.

Lemma get_colour_defined_range_witness :
  (is_Some (get_colour 63 (fresh (Some 1%nat) [(194, [])])) ↔ 0 ≤ 63 ≤ 63) ∧
  (is_Some (get_colour (-1) (fresh (Some 1%nat) [(26, [])])) ↔ 0 ≤ -1 ≤ 63).
Proof.
  split.
  - refine (get_colour_defined_range (fresh (Some 1%nat) [(194, [])]) 63 _).
    intros data. simpl. lia.
  - refine (get_colour_defined_range (fresh (Some 1%nat) [(26, [])]) (-1) _).
    intros data. simpl. lia.
Defined.

Lemma get_led_count_byte_witness :
  0 ≤ 44 < 256 ∧
  led_count (this (State (Device (Some 1%nat) 0 (Some 44)) []
                         [hid_get (Some 1%nat) [0x81; 0]])) = Some 44.
Proof.
  refine (get_led_count_byte (fresh (Some 1%nat) [(2, [0x81; 300])]) 44 _ _ _).
  - intros m Hm. discriminate Hm.
  - vm_compute. reflexivity.
Defined.

Lemma set_colours_rgb_fills_witness :
  ∃ count s1 ok s2,
    get_led_count (fresh (Some 1%nat) [(2, [0x81; 100])]) = Some (count, s1) ∧
    set_colours_rgb 0 1 2 3 (fresh (Some 1%nat) [(2, [0x81; 100])]) = Some (ok, s2) ∧
    calls s2
    = calls s1 ++
      [hid_send (Some 1%nat)
         ([(determine_report_id (count * 3)).1; 0 `mod` 256]
          ++ grb_bytes (replicate
                          (Z.to_nat (count `min` (determine_report_id (count * 3)).2))
                          (Colour 1 2 3))
          ++ replicate
               (3 * Z.to_nat ((determine_report_id (count * 3)).2
                              - count `min` (determine_report_id (count * 3)).2))
               0)].
Proof.
  refine (set_colours_rgb_fills (fresh (Some 1%nat) [(2, [0x81; 100])]) 1%nat 0 1 2 3
            eq_refl _).
  intros m Hm. discriminate Hm.
Defined.

Lemma off_all_sends_zeros_witness :
  ∃ count s1 ok s2,
    get_led_count (fresh (Some 1%nat) [(2, [0x81; 8])]) = Some (count, s1) ∧
    off_all (fresh (Some 1%nat) [(2, [0x81; 8])]) = Some (ok, s2) ∧
    calls s2
    = calls s1 ++
      [hid_send (Some 1%nat)
         ((determine_report_id (count * 3)).1
          :: replicate (Z.to_nat ((determine_report_id (count * 3)).2 * 3 + 1)) 0)].
Proof.
  exact (off_all_sends_zeros (fresh (Some 1%nat) [(2, [0x81; 8])]) 1%nat eq_refl).
Defined.

Lemma set_colours_rgb_null_handle_witness :
  ∃ s1, set_colours_rgb 0 1 2 3 (fresh None [(2, [0x81; 8])]) = Some (false, s1) ∧
        off_all (fresh None [(2, [0x81; 8])]) = Some (false, s1) ∧
        calls s1 = [] ++ [hid_get None (build_count_message 0)].
Proof.
  exact (proj2 (set_colours_rgb_null_handle (fresh None [(2, [0x81; 8])]) 0 1 2 3
                  eq_refl) eq_refl).
Defined.

Lemma is_valid_false_refuses_witness :
  (∀ mode, set_mode mode (fresh None []) = Some (false, fresh None [])) ∧
  (∀ channel index r g b,
     set_colour channel index r g b (fresh None []) = Some (false, fresh None [])) ∧
  (∀ channel index, off channel index (fresh None []) = Some (false, fresh None [])) ∧
  (∀ channel colours,
     set_colours channel colours (fresh None []) = Some (false, fresh None [])) ∧
  (∀ count, set_led_count count (fresh None []) = Some (false, fresh None [])).
Proof.
  exact (is_valid_false_refuses (fresh None []) eq_refl).
Defined.

End FurtherOnTheBench.
